(** * Account API views: a shallow embedding of [account/api/base/views.py]

    The views are thin handlers over an ORM, serializers, a JWT library and
    a mail service.  Each handler is embedded as a computation in a monad
    that threads the persistent world (user and profile tables, the mail
    outbox, the wall clock) and propagates Python exceptions; a raised
    exception keeps the writes made before it, as autocommitted saves do. *)

From stdpp Require Import gmap strings list fin_maps pretty sorting.

Local Open Scope Z_scope.
Local Open Scope string_scope.
Set Warnings "-register-all".

(** ** Data model *)

(** Response bodies and serializer payloads are JSON values. *)
Inductive JSON : Type :=
  | JNull
  | JBool (b : bool)
  | JInt (z : Z)
  | JStr (s : string)
  | JObj (fields : list (string * JSON)).

(** [account.models.User]: the columns the views read or write. *)
Record User : Type := mkUser {
  pk : Z;
  email : string;
  password : string;
  is_active : bool;
  verified_email : bool;
  last_login : option Z
}.

(** [account.models.Profile], one-to-one with [User] through [profile_user]. *)
Record Profile : Type := mkProfile {
  profile_id : Z;
  profile_user : Z;
  name : string
}.

(** Messages handed to the mail service. *)
Inductive Mail : Type :=
  | VerificationMail (recipient : string) (uid : Z)
  | HtmlMail (recipient subject template : string)
             (context : list (string * string)).

(** The persistent world a request runs against.  [clock] is what
    [timezone.now()] reads. *)
Record World : Type := mkWorld {
  users : gmap Z User;
  profiles : gmap Z Profile;
  outbox : list Mail;
  clock : Z
}.

Definition set_users (us : gmap Z User) (w : World) : World :=
  mkWorld us (profiles w) (outbox w) (clock w).

Definition set_profiles (ps : gmap Z Profile) (w : World) : World :=
  mkWorld (users w) ps (outbox w) (clock w).

Definition push_mail (m : Mail) (w : World) : World :=
  mkWorld (users w) (profiles w) (m :: outbox w) (clock w).

Definition set_last_login (t : option Z) (u : User) : User :=
  mkUser (pk u) (email u) (password u) (is_active u) (verified_email u) t.

Definition set_password (p : string) (u : User) : User :=
  mkUser (pk u) (email u) p (is_active u) (verified_email u) (last_login u).

(** HTTP methods and requests.  [auth] is what the authenticators made
    of the credentials of the request: none were sent, they identify a
    user, or they were rejected (a malformed or expired bearer token,
    say).  [url_id] is the [id] keyword argument of the profile route.
    The methods are those for which the views or their mixins define a
    handler, and DELETE; OPTIONS and HEAD are not modelled. *)
Inductive Method : Type := GET | POST | PUT | PATCH | DELETE.

#[global] Instance Method_eq_dec : EqDecision Method.
Proof. solve_decision. Defined.

Inductive Auth : Type :=
  | anonymous
  | authenticated (u : User)
  | rejected (msg : string).

Record Request : Type := mkRequest {
  method : Method;
  data : gmap string string;
  auth : Auth;
  url_id : option Z
}.

(** [request.user], with [None] for the anonymous user. *)
Definition req_user (r : Request) : option User :=
  match auth r with
  | authenticated u => Some u
  | _ => None
  end.

Record Response : Type := mkResponse {
  resp_data : JSON;
  status_code : Z
}.

(** ** Exceptions and the handler monad *)

Inductive Exn : Type :=
  | ValidationError (errors : JSON)
  | User_DoesNotExist
  | MultipleObjectsReturned
  | RelatedObjectDoesNotExist
  | TokenError (msg : string)
  | InvalidToken (msg : string)
  | AuthenticationFailed (msg : string)
  | NotAuthenticated
  | PermissionDenied
  | Http404
  | MethodNotAllowed
  | TypeError (msg : string)
  | ValueError (msg : string).

Inductive Outcome (A : Type) : Type :=
  | Return (a : A)
  | Raise (e : Exn).
Arguments Return {A} a.
Arguments Raise {A} e.

Definition M (A : Type) : Type := World → Outcome A * World.

Definition ret {A} (a : A) : M A := λ w, (Return a, w).

Definition raise {A} (e : Exn) : M A := λ w, (Raise e, w).

Definition bind {A B} (k : A → M B) (m : M A) : M B :=
  λ w, match m w with
       | (Return a, w') => k a w'
       | (Raise e, w') => (Raise e, w')
       end.

#[global] Instance M_ret : MRet M := @ret.
#[global] Instance M_bind : MBind M := @bind.

(** [try: m except e: h e]; [h] answers [None] for an exception the
    [except] clause does not name, which then propagates. *)
Definition try_except {A} (m : M A) (h : Exn → option (M A)) : M A :=
  λ w, match m w with
       | (Return a, w') => (Return a, w')
       | (Raise e, w') =>
           match h e with
           | Some k => k w'
           | None => (Raise e, w')
           end
       end.

Definition get_world : M World := λ w, (Return w, w).
Definition modify_world (f : World → World) : M unit := λ w, (Return tt, f w).

(** [timezone.now()] *)
Definition timezone_now : M Z := λ w, (Return (clock w), w).

(** ** ORM operations *)

Definition email_matches (e : option string) (u : User) : bool :=
  match e with
  | Some s => bool_decide (email u = s)
  | None => false
  end.

Definition users_with_email (e : option string) (us : gmap Z User) : list User :=
  List.filter (email_matches e) (snd <$> map_to_list us).

(** [User.objects.get(email=e)]: exactly one row or an exception.  A
    [None] argument (Python's [None]) matches no row. *)
Definition User_objects_get (e : option string) : M User :=
  w ← get_world;
  match users_with_email e (users w) with
  | [] => raise User_DoesNotExist
  | [u] => ret u
  | _ => raise MultipleObjectsReturned
  end.

(** [user.save()]: write the row under its primary key. *)
Definition User_save (u : User) : M unit :=
  modify_world (λ w, set_users (<[pk u := u]> (users w)) w).

Definition Profile_save (p : Profile) : M unit :=
  modify_world (λ w, set_profiles (<[profile_id p := p]> (profiles w)) w).

Definition profiles_of_user (uid : Z) (ps : gmap Z Profile) : list Profile :=
  List.filter (λ p, bool_decide (profile_user p = uid)) (snd <$> map_to_list ps).

(** [user.profile]: the reverse one-to-one accessor.  The column is
    unique, so at most one row matches. *)
Definition User_profile (u : User) : M Profile :=
  w ← get_world;
  match profiles_of_user (pk u) (profiles w) with
  | p :: _ => ret p
  | [] => raise RelatedObjectDoesNotExist
  end.

(** [get_object_or_404(Profile, user=uid)] *)
Definition get_object_or_404_Profile (uid : Z) : M Profile :=
  w ← get_world;
  match profiles_of_user uid (profiles w) with
  | [p] => ret p
  | [] => raise Http404
  | _ => raise MultipleObjectsReturned
  end.

(** ** The web framework: responses, permissions, exception handling *)

(** Python's [int(s)] on a string of decimal digits. *)
Definition digit_of (a : Ascii.ascii) : option Z :=
  let n := Z.of_nat (Ascii.nat_of_ascii a) in
  if ((48 <=? n)%Z && (n <=? 57)%Z)%bool then Some (n - 48) else None.

Fixpoint int_digits (s : string) (acc : Z) : option Z :=
  match s with
  | EmptyString => Some acc
  | String a s' =>
      match digit_of a with
      | Some d => int_digits s' (10 * acc + d)
      | None => None
      end
  end.

Definition python_int (s : string) : option Z :=
  match s with
  | EmptyString => None
  | _ => int_digits s 0
  end.

(** The [status] argument of [Response(...)]: omitted, an integer
    constant of [rest_framework.status], or (in [RegisterAPIView]) a
    string. *)
Inductive StatusArg : Type :=
  | status_default
  | status_int (n : Z)
  | status_str (s : string).

Definition HTTP_200_OK : Z := 200.
Definition HTTP_400_BAD_REQUEST : Z := 400.

(** [HttpResponseBase.__init__]: the status defaults to 200, anything else
    goes through [int(status)] and the 100..599 range check. *)
Definition mk_Response (body : JSON) (st : StatusArg) : M Response :=
  match st with
  | status_default => ret (mkResponse body 200)
  | status_int n =>
      if ((100 <=? n)%Z && (n <=? 599)%Z)%bool then ret (mkResponse body n)
      else raise (ValueError "HTTP status code must be an integer from 100 to 599.")
  | status_str s =>
      match python_int s with
      | None => raise (TypeError "HTTP status code must be an integer.")
      | Some n =>
          if ((100 <=? n)%Z && (n <=? 599)%Z)%bool then ret (mkResponse body n)
          else raise (ValueError "HTTP status code must be an integer from 100 to 599.")
      end
  end.

Inductive Permission : Type := AllowAny | IsAuthenticated.

Definition has_permission (p : Permission) (r : Request) : bool :=
  match p with
  | AllowAny => true
  | IsAuthenticated => bool_decide (is_Some (req_user r))
  end.

Definition check_permissions (ps : list Permission) (r : Request) : bool :=
  forallb (λ p, has_permission p r) ps.

(** The framework's exception handler: API exceptions become error
    responses [{detail, code}]; anything else is not handled and leaves
    the view as a server error. *)
Definition error_body (detail code : string) : JSON :=
  JObj [("detail", JStr detail); ("code", JStr code)].

Definition exception_handler (e : Exn) : option Response :=
  match e with
  | ValidationError errs => Some (mkResponse errs 400)
  | InvalidToken msg => Some (mkResponse (error_body msg "token_not_valid") 401)
  | AuthenticationFailed msg =>
      Some (mkResponse (error_body msg "authentication_failed") 401)
  | NotAuthenticated =>
      Some (mkResponse
              (error_body "Authentication credentials were not provided."
                          "not_authenticated") 401)
  | PermissionDenied =>
      Some (mkResponse
              (error_body "You do not have permission to perform this action."
                          "permission_denied") 403)
  | Http404 => Some (mkResponse (error_body "Not found." "not_found") 404)
  | MethodNotAllowed =>
      Some (mkResponse (error_body "Method not allowed." "method_not_allowed") 405)
  | _ => None
  end.

Definition handle_exception (o : Outcome Response) : Outcome Response :=
  match o with
  | Return resp => Return resp
  | Raise e =>
      match exception_handler e with
      | Some resp => Return resp
      | None => Raise e
      end
  end.

(** [APIView.dispatch]: [initial] authenticates the request and checks
    the permissions, then the handler for the method is looked up among
    [http_method_names] and run.  Credentials the authenticators reject
    raise [AuthenticationFailed], and a request without a principal that
    fails a permission raises [NotAuthenticated]; in both cases no handler
    is entered.
    Exceptions pass through [handle_exception]; the world keeps what the
    handler wrote before raising. *)
Definition dispatch (permission_classes : list Permission)
    (http_method_names : list Method)
    (handlers : Method → option (Request → M Response))
    (r : Request) : M Response :=
  λ w,
    match auth r with
    | rejected msg => (handle_exception (Raise (AuthenticationFailed msg)), w)
    | _ =>
        if check_permissions permission_classes r then
          match (if bool_decide (method r ∈ http_method_names)
                 then handlers (method r) else None) with
          | Some h => let '(o, w') := h r w in (handle_exception o, w')
          | None => (handle_exception (Raise MethodNotAllowed), w)
          end
        else (handle_exception (Raise NotAuthenticated), w)
    end.

(** The framework's default [http_method_names]. *)
Definition all_methods : list Method := [GET; POST; PUT; PATCH; DELETE].

Definition only_post (h : Request → M Response) (m : Method)
    : option (Request → M Response) :=
  match m with
  | POST => Some h
  | _ => None
  end.

(** ** Collaborators outside [views.py]

    The serializers, the token helpers, the mail helpers and the settings
    live in modules of the project that the views import.  Their pure
    parts are the fields of one interface; the views are written against
    it. *)

Inductive TokenType : Type := access_type | refresh_type.

#[global] Instance TokenType_eq_dec : EqDecision TokenType.
Proof. solve_decision. Defined.

(** The payload of a JWT once its signature has been verified. *)
Record Claims : Type := mkClaims {
  token_type : TokenType;
  user_id : Z;
  exp : Z
}.

(** What the password-reset generator signs. *)
Record SigningInput : Type := mkSigningInput {
  si_pk : Z;
  si_password : string;
  si_last_login : option Z;
  si_timestamp : Z
}.

(** The validated fields of a registration. *)
Record RegisterData : Type := mkRegisterData {
  reg_email : string;
  reg_password : string;
  reg_name : string
}.

Class Collaborators : Type := {
  (* utils.base.errors.ApiResponse: the human-readable texts *)
  EMAIL_NOT_VERIFIED_detail : string;
  ACCOUNT_NOT_ACTIVE_detail : string;
  (* serializers *)
  LoginSerializer_validate :
    gmap Z User → gmap string string → JSON + gmap string string;
  RegisterSerializer_schema : gmap string string → JSON + RegisterData;
  UserSerializer_data : User → JSON;
  ProfileSerializer_data : Profile → JSON;
  ProfileSerializer_validate :
    bool → gmap string string → JSON + gmap string string;
  validate_password : string → bool;
  make_password : string → string;
  get_fullname : Profile → string;
  (* utils.base.general: the access+refresh token pair issued for a user
     at a given time, as the JSON object the login response carries *)
  get_tokens_for_user : User → Z → JSON;
  (* the JWT library: signing and signature verification *)
  jwt_encode : Claims → string;
  jwt_decode : string → option Claims;
  ACCESS_TOKEN_LIFETIME : Z;
  (* django.utils.http and the settings *)
  urlsafe_base64_encode : string → string;
  urlsafe_base64_decode : string → option string;
  CLIENT_RESET_URL : string;
  (* tokens.password_reset_generator: the keyed hash and the token format *)
  sign : SigningInput → string;
  token_timestamp : string → option Z;
  PASSWORD_RESET_TIMEOUT : Z
}.

Section Helpers.
Context `{C : Collaborators}.

(** An entry of [utils.base.errors.ApiResponse]: error bodies carry
    [{detail, code}]. *)
Record ApiError : Type := mkApiError { detail : string; code : string }.

(** Modelled from the spec: [utils.base.errors.ApiResponse] is not in the
    sources; the domain error for an unverified email has the code
    [EMAIL_NOT_VERIFIED]. *)
Definition EMAIL_NOT_VERIFIED : ApiError :=
  mkApiError EMAIL_NOT_VERIFIED_detail "EMAIL_NOT_VERIFIED".

(** Modelled from the spec: [utils.base.errors.ApiResponse] is not in the
    sources; the domain error for an inactive account has the code
    [ACCOUNT_NOT_ACTIVE]. *)
Definition ACCOUNT_NOT_ACTIVE : ApiError :=
  mkApiError ACCOUNT_NOT_ACTIVE_detail "ACCOUNT_NOT_ACTIVE".

(** [serializer.is_valid(raise_exception=True)] for a serializer whose
    validation is the function [v]: the validated data, or a
    [ValidationError] carrying the field errors. *)
Definition is_valid {A} (v : JSON + A) : M A :=
  match v with
  | inl errs => raise (ValidationError errs)
  | inr vd => ret vd
  end.

(** Modelled from the spec: [utils.send_verification_email] is not in the
    sources; it sends the verification email to the given user.  The
    outbox records every message handed to the mail service. *)
Definition send_verification_email (u : User) (r : Request) : M unit :=
  modify_world (push_mail (VerificationMail (email u) (pk u))).

(** Modelled from the spec: [utils.base.email_service] is not in the
    sources; the mail service is a black box that takes the message. *)
Definition email_service_send_html (to subject template : string)
    (context : list (string * string)) (request : Request) (fail : bool)
    : M unit :=
  modify_world (push_mail (HtmlMail to subject template context)).

(** Modelled from the spec: [tokens.password_reset_generator] is not in
    the sources.  The reset token is a keyed hash, bound to the time of
    issue and to the user's state; its signing input includes
    last-login. *)
Definition signing_input (u : User) (ts : Z) : SigningInput :=
  mkSigningInput (pk u) (password u) (last_login u) ts.

(** Modelled from the spec: [password_reset_generator.make_token], not in
    the sources, signs the user's state at the time of issue. *)
Definition make_token (u : User) : M string :=
  now ← timezone_now;
  ret (sign (signing_input u now)).

(** Modelled from the spec: [password_reset_generator.check_token], not
    in the sources, recomputes the hash for the timestamp the token
    carries, compares, and enforces the time bound. *)
Definition check_token (u : User) (tok : string) (now : Z) : bool :=
  match token_timestamp tok with
  | None => false
  | Some ts =>
      bool_decide (sign (signing_input u ts) = tok)
      && bool_decide (now - ts ≤ PASSWORD_RESET_TIMEOUT)%Z
  end.

(** The JWT library.  [Token_init ty raw] is [RefreshToken(raw)] or
    [AccessToken(raw)]: signature, expiry and type are verified, any
    failure is a [TokenError]. *)
Definition Token_init (ty : TokenType) (raw : string) : M Claims :=
  now ← timezone_now;
  match jwt_decode raw with
  | None => raise (TokenError "Token is invalid or expired")
  | Some c =>
      if bool_decide (exp c ≤ now)%Z then
        raise (TokenError "Token is invalid or expired")
      else if bool_decide (token_type c = ty) then ret c
      else raise (TokenError "Token has wrong type")
  end.

(** [TokenRefreshSerializer.is_valid]: the required [refresh] field is
    decoded as a refresh token and a new access token is minted for the
    same user.  This is the serializer of the releases of the JWT library
    that do not consult the user table here; the view does that itself
    afterwards. *)
Definition TokenRefreshSerializer_is_valid (d : gmap string string)
    : M (gmap string string) :=
  match d !! "refresh" with
  | None =>
      raise (ValidationError (JObj [("refresh", JStr "This field is required.")]))
  | Some raw =>
      refresh ← Token_init refresh_type raw;
      now ← timezone_now;
      ret {[ "access" :=
               jwt_encode (mkClaims access_type (user_id refresh)
                                    (now + ACCESS_TOKEN_LIFETIME)) ]}
  end.

(** [JWTAuthentication.get_validated_token] and [.get_user]. *)
Definition get_validated_token (raw : option string) : M Claims :=
  match raw with
  | None => raise (InvalidToken "Given token not valid for any token type")
  | Some s =>
      try_except (Token_init access_type s)
        (λ e, match e with
              | TokenError _ =>
                  Some (raise (InvalidToken "Given token not valid for any token type"))
              | _ => None
              end)
  end.

Definition get_user (validated_token : Claims) : M User :=
  w ← get_world;
  match users w !! user_id validated_token with
  | None => raise (AuthenticationFailed "User not found")
  | Some u =>
      if is_active u then ret u
      else raise (AuthenticationFailed "User is inactive")
  end.

End Helpers.

Section Serializers.
Context `{C : Collaborators}.

(** A primary key no row uses: one past the largest key. *)
Definition fresh_key {A} (m : gmap Z A) : Z :=
  1 + foldr Z.max 0 (fst <$> map_to_list m).

(** Modelled from the spec: [serializers.RegisterSerializer] is not in
    the sources.  Registration fields are validated by schema, email
    uniqueness included. *)
Definition RegisterSerializer_is_valid (d : gmap string string)
    : M RegisterData :=
  rd ← is_valid (RegisterSerializer_schema d);
  w ← get_world;
  match users_with_email (Some (reg_email rd)) (users w) with
  | [] => ret rd
  | _ =>
      raise (ValidationError
               (JObj [("email", JStr "user with this email already exists.")]))
  end.

(** Modelled from the spec: [RegisterSerializer.save], not in the
    sources, creates the user (verified=false, active=true) and, with it,
    the profile. *)
Definition RegisterSerializer_save (rd : RegisterData) : M User :=
  w ← get_world;
  let u := mkUser (fresh_key (users w)) (reg_email rd)
                  (make_password (reg_password rd)) true false None in
  User_save u;;
  Profile_save (mkProfile (fresh_key (profiles w)) (pk u) (reg_name rd));;
  ret u.

(** Modelled from the spec: the reset serializers are not in the sources;
    the link carries the base64-encoded user id, which names the user. *)
Definition user_of_uidb64 (us : gmap Z User) (uidb64 : string) : option User :=
  s ← urlsafe_base64_decode uidb64;
  k ← python_int s;
  us !! k.

(** Modelled from the spec: [ResetPasswordTokenValidateSerializer], not
    in the sources, checks that the token is well-formed and unexpired for
    the user the id names. *)
Definition ResetPasswordTokenValidateSerializer_is_valid
    (d : gmap string string) : M User :=
  match d !! "uidb64", d !! "token" with
  | Some uidb64, Some tok =>
      w ← get_world;
      match user_of_uidb64 (users w) uidb64 with
      | None => raise (ValidationError (JObj [("uidb64", JStr "Invalid user id.")]))
      | Some u =>
          if check_token u tok (clock w) then ret u
          else raise (ValidationError
                        (JObj [("token", JStr "Token is invalid or expired.")]))
      end
  | _, _ =>
      raise (ValidationError (JObj [("detail", JStr "This field is required.")]))
  end.

(** Modelled from the spec: [ResetPasswordSerializer], not in the
    sources, validates the token and the new password. *)
Definition ResetPasswordSerializer_is_valid (d : gmap string string)
    : M (User * string) :=
  u ← ResetPasswordTokenValidateSerializer_is_valid d;
  match d !! "password" with
  | None =>
      raise (ValidationError (JObj [("password", JStr "This field is required.")]))
  | Some pw =>
      if validate_password pw then ret (u, pw)
      else raise (ValidationError (JObj [("password", JStr "Invalid password.")]))
  end.

(** Modelled from the spec: [ResetPasswordSerializer.save], not in the
    sources, persists the new password and returns the user. *)
Definition ResetPasswordSerializer_save (v : User * string) : M User :=
  let u := set_password (make_password (snd v)) (fst v) in
  User_save u;;
  ret u.

(** [ModelSerializer.update] on a profile: only the supplied fields are
    assigned, the row keeps its keys. *)
Definition ProfileSerializer_update (p : Profile) (vd : gmap string string)
    : Profile :=
  mkProfile (profile_id p) (profile_user p) (default (name p) (vd !! "name")).

End Serializers.

(** ** The views *)

Module TokenRefreshAPIView.
Section View.
Context `{C : Collaborators}.

Definition permission_classes : list Permission := [IsAuthenticated].

Definition post (request : Request) : M Response :=
  validated_data ←
    try_except (TokenRefreshSerializer_is_valid (data request))
      (λ e, match e with
            | TokenError msg => Some (raise (InvalidToken msg))
            | _ => None
            end);
  (* Update last login *)
  let access := validated_data !! "access" in
  validated_token ← get_validated_token access;
  user ← get_user validated_token;
  now ← timezone_now;
  User_save (set_last_login (Some now) user);;
  mk_Response (JObj (prod_map id JStr <$> map_to_list validated_data))
              (status_int HTTP_200_OK).

Definition as_view : Request → M Response :=
  dispatch permission_classes all_methods (only_post post).

End View.
End TokenRefreshAPIView.

Module LoginAPIView.
Section View.
Context `{C : Collaborators}.

Definition permission_classes : list Permission := [AllowAny].

Definition post (request : Request) : M Response :=
  w ← get_world;
  validated_data ← is_valid (LoginSerializer_validate (users w) (data request));
  let email := validated_data !! "email" in
  user ← User_objects_get email;
  if is_active user then
    if verified_email user then
      (* Get the user details with the user serializer *)
      let user_details := UserSerializer_data user in
      issued ← timezone_now;
      let response_data :=
        JObj [("tokens", get_tokens_for_user user issued);
              ("user", user_details)] in
      (* Update last login *)
      now ← timezone_now;
      User_save (set_last_login (Some now) user);;
      mk_Response response_data status_default
    else
      (* Resend email verification *)
      send_verification_email user request;;
      mk_Response
        (JObj [("detail", JStr (detail EMAIL_NOT_VERIFIED));
               ("code", JStr (code EMAIL_NOT_VERIFIED))])
        (status_int HTTP_400_BAD_REQUEST)
  else
    mk_Response
      (JObj [("detail", JStr (detail ACCOUNT_NOT_ACTIVE));
             ("code", JStr (code ACCOUNT_NOT_ACTIVE))])
      (status_int HTTP_400_BAD_REQUEST).

Definition as_view : Request → M Response :=
  dispatch permission_classes all_methods (only_post post).

End View.
End LoginAPIView.

Module RegisterAPIView.
Section View.
Context `{C : Collaborators}.

Definition permission_classes : list Permission := [AllowAny].

Definition create (request : Request) : M Response :=
  rd ← RegisterSerializer_is_valid (data request);
  user ← RegisterSerializer_save rd;
  (* Send email verification *)
  send_verification_email user request;;
  let user_details := UserSerializer_data user in
  mk_Response user_details (status_str "201").

Definition post (request : Request) : M Response := create request.

Definition as_view : Request → M Response :=
  dispatch permission_classes all_methods (only_post post).

End View.
End RegisterAPIView.

Module ForgetPasswordView.
Section View.
Context `{C : Collaborators}.

Definition permission_classes : list Permission := [IsAuthenticated].

(** [force_bytes(user.pk)]: the decimal text of the key. *)
Definition force_bytes (k : Z) : string := pretty k.

Definition post (request : Request) : M Response :=
  let email_ := data request !! "email" in
  try_except
    (user ← User_objects_get email_;
     (* Get email tokens for user *)
     let uidb64 := urlsafe_base64_encode (force_bytes (pk user)) in
     token ← make_token user;
     (* Send email to user *)
     profile ← User_profile user;
     email_service_send_html (email user) "Password Reset"
       "account/email/password_reset.html"
       [("user_name", get_fullname profile);
        ("uidb64", uidb64);
        ("token", token);
        ("CLIENT_RESET_URL", CLIENT_RESET_URL)]
       request true)
    (λ e, match e with
          | User_DoesNotExist => Some (ret tt)
          | _ => None
          end);;
  mk_Response
    (JObj [("detail", JStr "Password reset email sent if the email exists")])
    status_default.

Definition as_view : Request → M Response :=
  dispatch permission_classes all_methods (only_post post).

End View.
End ForgetPasswordView.

Module ValidateResetPasswordTokenView.
Section View.
Context `{C : Collaborators}.

Definition permission_classes : list Permission := [IsAuthenticated].

Definition post (request : Request) : M Response :=
  ResetPasswordTokenValidateSerializer_is_valid (data request);;
  mk_Response (JObj [("message", JStr "Token is valid")]) status_default.

Definition as_view : Request → M Response :=
  dispatch permission_classes all_methods (only_post post).

End View.
End ValidateResetPasswordTokenView.

Module ForgetResetPasswordView.
Section View.
Context `{C : Collaborators}.

Definition permission_classes : list Permission := [IsAuthenticated].

Definition post (request : Request) : M Response :=
  v ← ResetPasswordSerializer_is_valid (data request);
  user ← ResetPasswordSerializer_save v;
  (* Ensures reset link is not invalid *)
  now ← timezone_now;
  User_save (set_last_login (Some now) user);;
  mk_Response (JObj [("detail", JStr "Password reset successful.")])
              status_default.

Definition as_view : Request → M Response :=
  dispatch permission_classes all_methods (only_post post).

End View.
End ForgetResetPasswordView.

Module ProfileAPIView.
Section View.
Context `{C : Collaborators}.

Definition permission_classes : list Permission := [IsAuthenticated].
Definition http_method_names : list Method := [GET; PATCH].

(** [get_object_or_404(Profile, user=self.request.user.id)]; the
    anonymous user's id is [None], which matches no profile. *)
Definition get_object (request : Request) : M Profile :=
  match req_user request with
  | Some u => get_object_or_404_Profile (pk u)
  | None => raise Http404
  end.

(** The handlers [RetrieveUpdateAPIView] inherits from its mixins. *)
Definition retrieve (request : Request) : M Response :=
  instance ← get_object request;
  mk_Response (ProfileSerializer_data instance) status_default.

Definition update (partial : bool) (request : Request) : M Response :=
  instance ← get_object request;
  vd ← is_valid (ProfileSerializer_validate partial (data request));
  let instance' := ProfileSerializer_update instance vd in
  Profile_save instance';;
  mk_Response (ProfileSerializer_data instance') status_default.

Definition handlers (m : Method) : option (Request → M Response) :=
  match m with
  | GET => Some retrieve
  | PUT => Some (update false)
  | PATCH => Some (update true)
  | _ => None
  end.

Definition as_view : Request → M Response :=
  dispatch permission_classes http_method_names handlers.

End View.
End ProfileAPIView.

(** ** A reference instantiation of the collaborators

    A concrete, executable choice for every field of the interface, on
    which the views can be run: tokens are the decimal text of the
    countable encoding of what they sign, so decoding inverts encoding
    and distinct inputs give distinct tokens. *)

Module Reference.

#[global] Instance SigningInput_eq_dec : EqDecision SigningInput.
Proof. solve_decision. Defined.

#[global] Instance SigningInput_countable : Countable SigningInput.
Proof.
  refine (inj_countable'
            (λ si, (si_pk si, si_password si, si_last_login si, si_timestamp si))
            (λ t, match t with (a, b, c, d) => mkSigningInput a b c d end) _).
  by intros [].
Defined.

#[global] Instance Claims_eq_dec : EqDecision Claims.
Proof. solve_decision. Defined.

#[global] Instance Claims_countable : Countable Claims.
Proof.
  refine (inj_countable'
            (λ c, (bool_decide (token_type c = access_type), user_id c, exp c))
            (λ t, match t with
                  | (a, b, c) =>
                      mkClaims (if a : bool then access_type else refresh_type) b c
                  end) _).
  by intros [[] ? ?].
Defined.

Definition to_text `{Countable A} (a : A) : string := pretty (encode a).

Definition of_text `{Countable A} (s : string) : option A :=
  n ← python_int s;
  if bool_decide (0 < n)%Z then decode (Z.to_pos n) else None.

Definition required_error (field : string) : JSON :=
  JObj [(field, JStr "This field is required.")].

Definition hash_password (p : string) : string := "hashed:" +:+ p.

Definition login_validate (us : gmap Z User) (d : gmap string string)
    : JSON + gmap string string :=
  match d !! "email", d !! "password" with
  | Some e, Some p =>
      if existsb (λ u, bool_decide (password u = hash_password p))
                 (users_with_email (Some e) us)
      then inr {[ "email" := e ]}
      else inl (JObj [("detail", JStr "Unable to log in with provided credentials.")])
  | None, _ => inl (required_error "email")
  | _, None => inl (required_error "password")
  end.

Definition register_schema (d : gmap string string) : JSON + RegisterData :=
  match d !! "email", d !! "password", d !! "name" with
  | Some e, Some p, Some n =>
      if bool_decide (8 ≤ String.length p)%nat then inr (mkRegisterData e p n)
      else inl (JObj [("password", JStr "This password is too short.")])
  | _, _, _ => inl (required_error "email")
  end.

Definition token_pair (u : User) (now : Z) : JSON :=
  JObj [("refresh", JStr (to_text (mkClaims refresh_type (pk u) (now + 86400))));
        ("access", JStr (to_text (mkClaims access_type (pk u) (now + 300))))].

Definition user_payload (u : User) : JSON :=
  JObj [("id", JInt (pk u)); ("email", JStr (email u));
        ("verified_email", JBool (verified_email u))].

Definition profile_payload (p : Profile) : JSON :=
  JObj [("id", JInt (profile_id p)); ("user", JInt (profile_user p));
        ("name", JStr (name p))].

Definition profile_validate (partial : bool) (d : gmap string string)
    : JSON + gmap string string :=
  match d !! "name" with
  | Some n => inr {[ "name" := n ]}
  | None => if partial then inr ∅ else inl (required_error "name")
  end.

Definition collaborators : Collaborators := {|
  EMAIL_NOT_VERIFIED_detail := "Email not verified";
  ACCOUNT_NOT_ACTIVE_detail := "Account is not active";
  LoginSerializer_validate := login_validate;
  RegisterSerializer_schema := register_schema;
  UserSerializer_data := user_payload;
  ProfileSerializer_data := profile_payload;
  ProfileSerializer_validate := profile_validate;
  validate_password := λ p, bool_decide (8 ≤ String.length p)%nat;
  make_password := hash_password;
  get_fullname := name;
  get_tokens_for_user := token_pair;
  jwt_encode := to_text;
  jwt_decode := of_text;
  ACCESS_TOKEN_LIFETIME := 300;
  urlsafe_base64_encode := id;
  urlsafe_base64_decode := Some;
  CLIENT_RESET_URL := "https://client.example/reset";
  sign := to_text;
  token_timestamp := λ s, si_timestamp <$> of_text s;
  PASSWORD_RESET_TIMEOUT := 259200
|}.

(** Sample rows: an active verified user, an active unverified one, an
    inactive unverified one. *)
Definition alice : User :=
  mkUser 1 "alice@example.org" (hash_password "correct horse") true true (Some 1000).
Definition bob : User :=
  mkUser 2 "bob@example.org" (hash_password "battery staple") true false None.
Definition carol : User :=
  mkUser 3 "carol@example.org" (hash_password "tr0ub4dor&3") false false None.

Definition world0 : World :=
  mkWorld {[ 1 := alice; 2 := bob; 3 := carol ]}
          {[ 10 := mkProfile 10 1 "Alice A."; 20 := mkProfile 20 2 "Bob B.";
             30 := mkProfile 30 3 "Carol C." ]}
          [] 5000.

Definition post_request (d : gmap string string) (a : Auth) : Request :=
  mkRequest POST d a None.

Definition login_request (e p : string) : Request :=
  post_request {[ "email" := e; "password" := p ]} anonymous.

Definition register_request : Request :=
  post_request {[ "email" := "dave@example.org"; "password" := "longenough";
                  "name" := "Dave D." ]} anonymous.

Definition forget_request (e : string) (a : Auth) : Request :=
  post_request {[ "email" := e ]} a.

(** A refresh token for alice that expired at 4000, and one good until
    9000. *)
Definition expired_refresh : string := to_text (mkClaims refresh_type 1 4000).
Definition good_refresh : string := to_text (mkClaims refresh_type 1 9000).

Definition refresh_request (raw : string) : Request :=
  post_request {[ "refresh" := raw ]} (authenticated alice).

(** A reset token issued for alice at 4000, and the confirmation that
    uses it. *)
Definition alice_reset_token : string := to_text (signing_input alice 4000).

Definition reset_confirm_request : Request :=
  post_request {[ "uidb64" := "1"; "token" := alice_reset_token;
                  "password" := "a new passphrase" ]} (authenticated alice).

Definition profile_request (m : Method) (d : gmap string string) : Request :=
  mkRequest m d (authenticated alice) (Some 999).

End Reference.

(** ** Vocabulary of the properties *)

(** The email resolves to the user [u]: the lookup of the view finds
    exactly that row. *)
Definition email_resolves (us : gmap Z User) (e : option string) (u : User)
    : Prop :=
  users_with_email e us = [u].

(** No stored user has the email. *)
Definition email_unknown (us : gmap Z User) (e : option string) : Prop :=
  map_Forall (λ _ u, email_matches e u = false) us.

(** The world after [u]'s last-login has been set to the current time. *)
Definition with_last_login_now (u : User) (w : World) : World :=
  set_users (<[pk u := set_last_login (Some (clock w)) u]> (users w)) w.

Definition api_error_response (e : ApiError) : Response :=
  mkResponse (JObj [("detail", JStr (detail e)); ("code", JStr (code e))]) 400.

Definition not_authenticated_response : Response :=
  mkResponse (error_body "Authentication credentials were not provided."
                         "not_authenticated") 401.

Definition authentication_failed_response (msg : string) : Response :=
  mkResponse (error_body msg "authentication_failed") 401.

(** The answer of a view that requires authentication to a request
    without a principal. *)
Definition unauthenticated_response (r : Request) : Response :=
  match auth r with
  | rejected msg => authentication_failed_response msg
  | _ => not_authenticated_response
  end.

Definition credentials_rejected (r : Request) : bool :=
  match auth r with
  | rejected _ => true
  | _ => false
  end.

Definition method_not_allowed_response : Response :=
  mkResponse (error_body "Method not allowed." "method_not_allowed") 405.

Definition generic_forget_response : Response :=
  mkResponse
    (JObj [("detail", JStr "Password reset email sent if the email exists")])
    200.

(** The user has a profile row (the one-to-one invariant of the data
    model, seen from the user). *)
Definition has_profile (ps : gmap Z Profile) (u : User) : Prop :=
  ∃ k p, ps !! k = Some p ∧ profile_user p = pk u.

Section Vocabulary.
Context `{C : Collaborators}.

(** The refresh token is invalid or expired at time [now]: its signature
    does not verify, it has expired, or it is not a refresh token. *)
Definition refresh_token_rejected (raw : string) (now : Z) : Prop :=
  match jwt_decode raw with
  | None => True
  | Some c => (exp c ≤ now)%Z ∨ token_type c ≠ refresh_type
  end.

Definition invalid_token_response (msg : string) : Response :=
  mkResponse (error_body msg "token_not_valid") 401.




End Vocabulary.

(** ** The remaining views

    The token check, the two email-verification views and the user
    listing.  The serializers of the verification views live outside
    [views.py]; their validation is a parameter that yields the user the
    request names. *)

Class VerificationSerializers : Type := {
  ResendEmailSerializer_validate :
    gmap Z User → gmap string string → JSON + User;
  EmailTokenValidateSerializer_validate :
    gmap Z User → gmap string string → JSON + User
}.

Definition set_verified_email (b : bool) (u : User) : User :=
  mkUser (pk u) (email u) (password u) (is_active u) b (last_login u).

Module TokenVerifyAPIView.
Section View.
Context `{C : Collaborators}.

Definition permission_classes : list Permission := [IsAuthenticated].

Definition post (request : Request) : M Response :=
  let raw_token := data request !! "token" in
  validated_token ← get_validated_token raw_token;
  user ← get_user validated_token;
  let user_details := UserSerializer_data user in
  mk_Response user_details status_default.

Definition as_view : Request → M Response :=
  dispatch permission_classes all_methods (only_post post).

End View.
End TokenVerifyAPIView.

(** [permission_classes = (SuperPerm,)] is defined in a module outside
    [views.py]; the handler is what is embedded here. *)
Module ResendEmailVerificationView.
Section View.
Context `{C : Collaborators} `{V : VerificationSerializers}.

Definition post (request : Request) : M Response :=
  w ← get_world;
  user ← is_valid (ResendEmailSerializer_validate (users w) (data request));
  (* Resend email verification *)
  send_verification_email user request;;
  mk_Response (JObj [("message", JStr "Email sent successfully")])
              status_default.

End View.
End ResendEmailVerificationView.

Module ValidateEmailVerificationTokenView.
Section View.
Context `{C : Collaborators} `{V : VerificationSerializers}.

Definition permission_classes : list Permission := [AllowAny].

Definition post (request : Request) : M Response :=
  w ← get_world;
  user ← is_valid (EmailTokenValidateSerializer_validate (users w) (data request));
  let user := set_verified_email true user in
  User_save user;;
  mk_Response (UserSerializer_data user) status_default.

Definition as_view : Request → M Response :=
  dispatch permission_classes all_methods (only_post post).

End View.
End ValidateEmailVerificationTokenView.

Module UserListView.

Definition permission_classes : list Permission := [IsAuthenticated].

(** The order of [order_by('email')], taken as the lexicographic order
    of the strings. *)
Definition email_le (u v : User) : Prop :=
  String.leb (email u) (email v) = true.

#[global] Instance email_le_dec : RelDecision email_le.
Proof. intros u v. unfold email_le. apply _. Defined.

(** [User.objects.all().order_by('email')] *)
Definition get_queryset (w : World) : list User :=
  merge_sort email_le (snd <$> map_to_list (users w)).

End UserListView.

(** A reference choice for the verification serializers: the request
    names the user by key and carries the text ["verify-"] followed by the
    user's email as its token. *)
Module ReferenceVerification.

Definition named_user (us : gmap Z User) (d : gmap string string)
    : JSON + User :=
  match d !! "uid" with
  | None => inl (JObj [("uid", JStr "This field is required.")])
  | Some s =>
      match python_int s ≫= (λ k, us !! k) with
      | None => inl (JObj [("uid", JStr "Invalid user id.")])
      | Some u => inr u
      end
  end.

Definition email_token_validate (us : gmap Z User) (d : gmap string string)
    : JSON + User :=
  match named_user us d with
  | inl errs => inl errs
  | inr u =>
      if bool_decide (d !! "token" = Some ("verify-" +:+ email u)) then inr u
      else inl (JObj [("token", JStr "Invalid token.")])
  end.

Definition serializers : VerificationSerializers := {|
  ResendEmailSerializer_validate := named_user;
  EmailTokenValidateSerializer_validate := email_token_validate
|}.

(** The reference collaborators with another login validation and
    another profile validation. *)
Definition variant
    (lv : gmap Z User → gmap string string → JSON + gmap string string)
    (pv : bool → gmap string string → JSON + gmap string string)
    : Collaborators := {|
  EMAIL_NOT_VERIFIED_detail := "Email not verified";
  ACCOUNT_NOT_ACTIVE_detail := "Account is not active";
  LoginSerializer_validate := lv;
  RegisterSerializer_schema := Reference.register_schema;
  UserSerializer_data := Reference.user_payload;
  ProfileSerializer_data := Reference.profile_payload;
  ProfileSerializer_validate := pv;
  validate_password := λ p, bool_decide (8 ≤ String.length p)%nat;
  make_password := Reference.hash_password;
  get_fullname := name;
  get_tokens_for_user := Reference.token_pair;
  jwt_encode := Reference.to_text;
  jwt_decode := Reference.of_text;
  ACCESS_TOKEN_LIFETIME := 300;
  urlsafe_base64_encode := id;
  urlsafe_base64_decode := Some;
  CLIENT_RESET_URL := "https://client.example/reset";
  sign := Reference.to_text;
  token_timestamp := λ s, si_timestamp <$> Reference.of_text s;
  PASSWORD_RESET_TIMEOUT := 259200
|}.

(** A login serializer that checks nothing and hands the body on as
    validated data. *)
Definition open_login : Collaborators :=
  variant (λ _ d, inr d) Reference.profile_validate.

(** A profile serializer that refuses a blank name. *)
Definition strict_profile : Collaborators :=
  variant Reference.login_validate
    (λ partial d,
       match d !! "name" with
       | Some n =>
           if bool_decide (n = "") then
             inl (JObj [("name", JStr "This field may not be blank.")])
           else inr {[ "name" := n ]}
       | None =>
           if partial then inr ∅ else inl (Reference.required_error "name")
       end).


Definition verify_email_request : Request :=
  mkRequest POST {[ "uid" := "2"; "token" := "verify-bob@example.org" ]}
            anonymous None.

Definition access_for_alice : string :=
  Reference.to_text (mkClaims access_type 1 9000).

Definition token_verify_request (d : gmap string string) : Request :=
  mkRequest POST d (authenticated Reference.bob) None.

End ReferenceVerification.

(** ** More vocabulary *)

Section MoreVocabulary.
Context `{C : Collaborators}.

(** The access token is invalid or expired at time [now]. *)
Definition access_token_rejected (raw : option string) (now : Z) : Prop :=
  match raw with
  | None => True
  | Some s =>
      match jwt_decode s with
      | None => True
      | Some c => (exp c ≤ now)%Z ∨ token_type c ≠ access_type
      end
  end.

(** The access token the refresh serializer mints for the holder of the
    refresh claims [c] at time [now]. *)
Definition minted_access (c : Claims) (now : Z) : Claims :=
  mkClaims access_type (user_id c) (now + ACCESS_TOKEN_LIFETIME).

(** The context of the reset mail for the user [u], issued at [now]. *)
Definition reset_mail (u : User) (fullname : string) (now : Z) : Mail :=
  HtmlMail (email u) "Password Reset" "account/email/password_reset.html"
    [("user_name", fullname);
     ("uidb64", urlsafe_base64_encode (ForgetPasswordView.force_bytes (pk u)));
     ("token", sign (signing_input u now));
     ("CLIENT_RESET_URL", CLIENT_RESET_URL)].

End MoreVocabulary.

(** A handler fails cleanly when every exception it raises leaves the
    world as it found it. *)
Definition fails_clean (h : Request → M Response) : Prop :=
  ∀ r w e w', h r w = (Raise e, w') → w' = w.

Definition resend_response : Response :=
  mkResponse (JObj [("message", JStr "Email sent successfully")]) 200.

Definition not_found_response : Response :=
  mkResponse (error_body "Not found." "not_found") 404.

Definition token_valid_response : Response :=
  mkResponse (JObj [("message", JStr "Token is valid")]) 200.

(** ** Stepping lemmas *)

Ltac unfold_monad :=
  repeat progress
    (unfold mbind, M_bind, bind, mret, M_ret, ret, raise, get_world,
       modify_world, timezone_now, is_valid, try_except in *;
     cbv beta iota zeta in *).

Section Framework.

Lemma dispatch_unauthenticated ms hs r w :
  req_user r = None →
  dispatch [IsAuthenticated] ms hs r w = (Return (unauthenticated_response r), w).
Proof.
  unfold req_user, dispatch, unauthenticated_response, check_permissions.
  simpl. unfold req_user. by destruct (auth r).
Qed.

Lemma dispatch_post ps h r w :
  credentials_rejected r = false →
  check_permissions ps r = true →
  method r = POST →
  dispatch ps all_methods (only_post h) r w
  = (handle_exception (h r w).1, (h r w).2).
Proof.
  intros Hc Hp Hm. unfold dispatch. rewrite Hp, Hm. simpl.
  unfold credentials_rejected in Hc.
  destruct (auth r); try done; by destruct (h r w).
Qed.

Lemma principal_accepted r :
  is_Some (req_user r) →
  credentials_rejected r = false
  ∧ check_permissions [IsAuthenticated] r = true.
Proof.
  intros [u Hu]. unfold credentials_rejected, check_permissions. simpl.
  rewrite Hu. unfold req_user in Hu. by destruct (auth r).
Qed.

Lemma unauthenticated_status r :
  status_code (unauthenticated_response r) = 401%Z.
Proof. unfold unauthenticated_response. by destruct (auth r). Qed.

Lemma users_with_email_unknown us e :
  email_unknown us e → users_with_email e us = [].
Proof.
  intros Hun. unfold users_with_email.
  destruct (List.filter _ _) as [|u l] eqn:Hf; [done|].
  assert (Hin : In u (List.filter (email_matches e) (map_to_list us).*2))
    by (rewrite Hf; left; reflexivity).
  apply filter_In in Hin as [Hin Hm].
  apply list_elem_of_In, list_elem_of_fmap in Hin as [[k u'] [-> Hel]].
  apply elem_of_map_to_list in Hel. simpl in Hm.
  by rewrite (Hun k u' Hel) in Hm.
Qed.

End Framework.

(** ** Login *)

Section Login.
Context `{C : Collaborators}.

(** An email that resolves names a stored row with that email. *)
Lemma email_resolves_stored us e u :
  email_resolves us (Some e) u → ∃ k, us !! k = Some u ∧ email u = e.
Proof.
  unfold email_resolves, users_with_email. intros Hres.
  assert (Hin : In u (List.filter (email_matches (Some e)) (map_to_list us).*2))
    by (rewrite Hres; by left).
  apply filter_In in Hin as [Hin Hm].
  apply list_elem_of_In, list_elem_of_fmap in Hin as [[k u'] [-> Hel]].
  apply elem_of_map_to_list in Hel.
  exists k. split; [done|]. by apply bool_decide_eq_true in Hm.
Qed.

Lemma User_objects_get_resolves e u w :
  email_resolves (users w) e u →
  User_objects_get e w = (Return u, w).
Proof.
  intros Hres. unfold User_objects_get. unfold_monad.
  unfold email_resolves in Hres. by rewrite Hres.
Qed.

(** What [LoginAPIView.post] does once validation has passed and the
    validated email has resolved to [u]. *)
Lemma login_post_resolved r w vd u :
  LoginSerializer_validate (users w) (data r) = inr vd →
  email_resolves (users w) (vd !! "email") u →
  LoginAPIView.post r w =
    if is_active u then
      if verified_email u then
        (Return (mkResponse (JObj [("tokens", get_tokens_for_user u (clock w));
                                   ("user", UserSerializer_data u)]) 200),
         with_last_login_now u w)
      else
        (Return (api_error_response EMAIL_NOT_VERIFIED),
         push_mail (VerificationMail (email u) (pk u)) w)
    else (Return (api_error_response ACCOUNT_NOT_ACTIVE), w).
Proof.
  intros Hval Hres. unfold LoginAPIView.post. unfold_monad.
  rewrite Hval. unfold email_resolves in Hres.
  unfold User_objects_get. unfold_monad. rewrite Hres.
  destruct (is_active u), (verified_email u); reflexivity.
Qed.

Lemma login_as_view r w :
  method r = POST →
  credentials_rejected r = false →
  LoginAPIView.as_view r w
  = (handle_exception (LoginAPIView.post r w).1, (LoginAPIView.post r w).2).
Proof. intros Hm Hc. by apply dispatch_post. Qed.

(** C1.  A login whose credentials pass serializer validation and whose
    email resolves to an active user with a verified email returns a 200
    response; its body holds the access+refresh token pair and the
    serialized user, and the stored last-login of that user becomes the
    current time.  The same holds through the view with its permission
    check. *)
Theorem login_active_verified_returns_tokens r w vd u :
  LoginSerializer_validate (users w) (data r) = inr vd →
  email_resolves (users w) (vd !! "email") u →
  is_active u = true →
  verified_email u = true →
  LoginAPIView.post r w =
    (Return (mkResponse (JObj [("tokens", get_tokens_for_user u (clock w));
                               ("user", UserSerializer_data u)]) 200),
     with_last_login_now u w)
  ∧ (method r = POST → credentials_rejected r = false →
     LoginAPIView.as_view r w = LoginAPIView.post r w)
  ∧ (∃ u', users (with_last_login_now u w) !! pk u = Some u'
           ∧ last_login u' = Some (clock w))
  ∧ outbox (with_last_login_now u w) = outbox w.
Proof.
  intros Hval Hres Ha Hv.
  pose proof (login_post_resolved r w vd u Hval Hres) as Hpost.
  rewrite Ha, Hv in Hpost.
  split; [exact Hpost|]. split; [|split].
  - intros Hm Hc. rewrite login_as_view by done. by rewrite Hpost.
  - eexists. split; [apply lookup_insert_eq|done].
  - done.
Qed.

(** C4, as amended.  A login that passes validation and whose email
    resolves to an active user with an unverified email returns 400 with
    code EMAIL_NOT_VERIFIED and hands the verification email for that
    user to the mail service; nothing else in the world changes. *)
Theorem login_active_unverified_resends r w vd u :
  LoginSerializer_validate (users w) (data r) = inr vd →
  email_resolves (users w) (vd !! "email") u →
  is_active u = true →
  verified_email u = false →
  LoginAPIView.post r w =
    (Return (mkResponse
               (JObj [("detail", JStr EMAIL_NOT_VERIFIED_detail);
                      ("code", JStr "EMAIL_NOT_VERIFIED")]) 400),
     push_mail (VerificationMail (email u) (pk u)) w)
  ∧ (method r = POST → credentials_rejected r = false →
     LoginAPIView.as_view r w = LoginAPIView.post r w).
Proof.
  intros Hval Hres Ha Hv.
  pose proof (login_post_resolved r w vd u Hval Hres) as Hpost.
  rewrite Ha, Hv in Hpost.
  split; [exact Hpost|].
  intros Hm Hc. rewrite login_as_view by done. by rewrite Hpost.
Qed.

(** C5.  A login whose email resolves to an inactive user returns 400
    with code ACCOUNT_NOT_ACTIVE, whatever the verified flag is. *)
Theorem login_inactive_rejected r w vd u :
  LoginSerializer_validate (users w) (data r) = inr vd →
  email_resolves (users w) (vd !! "email") u →
  is_active u = false →
  LoginAPIView.post r w =
    (Return (mkResponse
               (JObj [("detail", JStr ACCOUNT_NOT_ACTIVE_detail);
                      ("code", JStr "ACCOUNT_NOT_ACTIVE")]) 400), w)
  ∧ (method r = POST → credentials_rejected r = false →
     LoginAPIView.as_view r w = LoginAPIView.post r w).
Proof.
  intros Hval Hres Ha.
  pose proof (login_post_resolved r w vd u Hval Hres) as Hpost.
  rewrite Ha in Hpost.
  split; [exact Hpost|].
  intros Hm Hc. rewrite login_as_view by done. by rewrite Hpost.
Qed.

(** C10.  A login whose email resolves to a user that is both inactive
    and unverified gets the ACCOUNT_NOT_ACTIVE error: the active flag is
    tested first, so the branch that sends the verification email is not
    reached, and the world (the outbox in particular) is unchanged. *)
Theorem login_inactive_unverified_no_mail r w vd u :
  LoginSerializer_validate (users w) (data r) = inr vd →
  email_resolves (users w) (vd !! "email") u →
  is_active u = false →
  verified_email u = false →
  LoginAPIView.post r w = (Return (api_error_response ACCOUNT_NOT_ACTIVE), w)
  ∧ code ACCOUNT_NOT_ACTIVE = "ACCOUNT_NOT_ACTIVE"
  ∧ outbox (LoginAPIView.post r w).2 = outbox w.
Proof.
  intros Hval Hres Ha Hv.
  pose proof (login_post_resolved r w vd u Hval Hres) as Hpost.
  rewrite Ha in Hpost. rewrite Hpost. done.
Qed.

End Login.

(** ** Registration *)

Section Register.
Context `{C : Collaborators}.

Lemma foldr_max_bound (l : list Z) (x : Z) :
  x ∈ l → (x ≤ foldr Z.max 0 l)%Z.
Proof.
  induction l as [|y l IH]; intros Hx.
  - by apply elem_of_nil in Hx.
  - apply elem_of_cons in Hx as [->|Hx]; simpl.
    + lia.
    + specialize (IH Hx). lia.
Qed.

Lemma fresh_key_fresh {A} (m : gmap Z A) : m !! fresh_key m = None.
Proof.
  destruct (m !! fresh_key m) as [a|] eqn:Hl; [|done].
  exfalso.
  assert (Hin : fresh_key m ∈ (map_to_list m).*1).
  { apply list_elem_of_fmap. exists (fresh_key m, a).
    split; [done|]. by apply elem_of_map_to_list. }
  apply foldr_max_bound in Hin. unfold fresh_key in Hin at 1. lia.
Qed.

(** Saving a registration gives the new user its profile. *)
Lemma register_save_has_profile rd w u w' :
  RegisterSerializer_save rd w = (Return u, w') →
  has_profile (profiles w') u.
Proof.
  unfold RegisterSerializer_save, User_save, Profile_save. unfold_monad.
  intros [= <- <-]. simpl.
  exists (fresh_key (profiles w)). eexists.
  split; [apply lookup_insert_eq|done].
Qed.

(** C7.  A registration that passes schema validation, email uniqueness
    included, creates a new user row under a key no row had (unverified,
    active, never logged in), hands the verification email for that user
    to the mail service, and returns the serialized user with status
    201. *)
Theorem register_creates_user_201 r w rd :
  RegisterSerializer_schema (data r) = inr rd →
  email_unknown (users w) (Some (reg_email rd)) →
  ∃ u w',
    RegisterAPIView.create r w
      = (Return (mkResponse (UserSerializer_data u) 201), w')
    ∧ users w !! pk u = None
    ∧ users w' = <[pk u := u]> (users w)
    ∧ email u = reg_email rd
    ∧ is_active u = true ∧ verified_email u = false ∧ last_login u = None
    ∧ outbox w' = VerificationMail (email u) (pk u) :: outbox w
    ∧ (method r = POST → credentials_rejected r = false →
       RegisterAPIView.as_view r w = RegisterAPIView.create r w).
Proof.
  intros Hschema Hfree.
  apply users_with_email_unknown in Hfree.
  set (u := mkUser (fresh_key (users w)) (reg_email rd)
                   (make_password (reg_password rd)) true false None).
  assert (Hrun : ∃ w', RegisterAPIView.create r w
                       = (Return (mkResponse (UserSerializer_data u) 201), w')
                     ∧ users w' = <[pk u := u]> (users w)
                     ∧ outbox w' = VerificationMail (email u) (pk u) :: outbox w).
  { unfold RegisterAPIView.create, RegisterSerializer_is_valid,
      RegisterSerializer_save, send_verification_email, User_save,
      Profile_save, mk_Response.
    unfold_monad. rewrite Hschema. simpl. rewrite Hfree. simpl.
    eexists. split; [reflexivity|]. by split. }
  destruct Hrun as (w' & Hrun & Hus & Hout).
  exists u, w'. repeat split; try done.
  - apply fresh_key_fresh.
  - intros Hm Hc. unfold RegisterAPIView.as_view.
    rewrite dispatch_post by done.
    change (RegisterAPIView.post r w) with (RegisterAPIView.create r w).
    by rewrite Hrun.
Qed.

End Register.

(** ** Password reset: request *)

Section ForgetPassword.
Context `{C : Collaborators}.

Lemma profiles_of_user_nonempty ps u :
  has_profile ps u → ∃ p l, profiles_of_user (pk u) ps = p :: l.
Proof.
  intros (k & p & Hl & Hu). unfold profiles_of_user.
  destruct (List.filter _ _) as [|q l] eqn:Hf; [|by eauto].
  exfalso.
  assert (Hin : In p (List.filter (λ p, bool_decide (profile_user p = pk u))
                        (map_to_list ps).*2)).
  { apply filter_In. split.
    - apply list_elem_of_In, list_elem_of_fmap. exists (k, p).
      split; [done|]. by apply elem_of_map_to_list.
    - by apply bool_decide_eq_true. }
  by rewrite Hf in Hin.
Qed.

Lemma forget_post_unknown r w :
  email_unknown (users w) (data r !! "email") →
  ForgetPasswordView.post r w = (Return generic_forget_response, w).
Proof.
  intros Hun. apply users_with_email_unknown in Hun.
  unfold ForgetPasswordView.post, User_objects_get. unfold_monad.
  by rewrite Hun.
Qed.

Lemma forget_post_known r w u :
  email_resolves (users w) (data r !! "email") u →
  has_profile (profiles w) u →
  ∃ m, ForgetPasswordView.post r w
       = (Return generic_forget_response, push_mail m w).
Proof.
  intros Hres Hp. apply profiles_of_user_nonempty in Hp as (p & l & Hp).
  unfold email_resolves in Hres.
  unfold ForgetPasswordView.post, User_objects_get, make_token, User_profile,
    email_service_send_html.
  unfold_monad. rewrite Hres. simpl. rewrite Hp. simpl.
  by eexists.
Qed.

(** Where the answers do agree.  Take one forget-password request whose
    email matches an existing user that has a profile row and one whose
    email matches no user, each run in its own world.  Both runs return
    the same response, the generic success message with status 200.  In
    the run for the unknown email the failed lookup is caught: the handler
    returns normally and leaves the world as it was.  Through the view the
    two authenticated requests get the same response as well. *)
Lemma forget_password_same_response r1 w1 u r2 w2 :
  email_resolves (users w1) (data r1 !! "email") u →
  has_profile (profiles w1) u →
  email_unknown (users w2) (data r2 !! "email") →
  (ForgetPasswordView.post r1 w1).1 = Return generic_forget_response
  ∧ ForgetPasswordView.post r2 w2 = (Return generic_forget_response, w2)
  ∧ (ForgetPasswordView.post r1 w1).1 = (ForgetPasswordView.post r2 w2).1
  ∧ (method r1 = POST → method r2 = POST →
     is_Some (req_user r1) → is_Some (req_user r2) →
     (ForgetPasswordView.as_view r1 w1).1 = Return generic_forget_response
     ∧ (ForgetPasswordView.as_view r2 w2).1 = Return generic_forget_response).
Proof.
  intros Hres Hp Hun.
  destruct (forget_post_known r1 w1 u Hres Hp) as [m Hk].
  pose proof (forget_post_unknown r2 w2 Hun) as Hu.
  split; [by rewrite Hk|]. split; [exact Hu|]. split; [by rewrite Hk, Hu|].
  intros Hm1 Hm2 [Hc1 Hp1]%principal_accepted [Hc2 Hp2]%principal_accepted.
  unfold ForgetPasswordView.as_view.
  rewrite !dispatch_post by done.
  by rewrite Hk, Hu.
Qed.

(** C9.  The three views of the password-reset flow carry the
    IsAuthenticated permission.  A request without an authenticated
    principal (no credentials, or credentials the authenticators reject)
    is answered with a 401 authentication error by each of them and the
    world is left as it was: no row is written and nothing is handed to
    the mail service.  The rejection comes from the dispatcher, which
    answers the same for every handler table, so no handler (lookup,
    token generation, mail, password change) is entered. *)
Theorem reset_flow_requires_authentication r w :
  req_user r = None →
  ForgetPasswordView.as_view r w = (Return (unauthenticated_response r), w)
  ∧ ValidateResetPasswordTokenView.as_view r w
    = (Return (unauthenticated_response r), w)
  ∧ ForgetResetPasswordView.as_view r w
    = (Return (unauthenticated_response r), w)
  ∧ status_code (unauthenticated_response r) = 401%Z
  ∧ (auth r = anonymous →
     unauthenticated_response r = not_authenticated_response)
  ∧ (∀ ms hs, dispatch [IsAuthenticated] ms hs r w
              = (Return (unauthenticated_response r), w)).
Proof.
  intros Hanon.
  split; [by apply dispatch_unauthenticated|].
  split; [by apply dispatch_unauthenticated|].
  split; [by apply dispatch_unauthenticated|].
  split; [apply unauthenticated_status|].
  split.
  - intros Ha. unfold unauthenticated_response. by rewrite Ha.
  - intros ms hs. by apply dispatch_unauthenticated.
Qed.

End ForgetPassword.

(** ** Token refresh *)

Section TokenRefresh.
Context `{C : Collaborators}.

Lemma Token_init_rejected raw w :
  refresh_token_rejected raw (clock w) →
  ∃ msg, Token_init refresh_type raw w = (Raise (TokenError msg), w).
Proof.
  unfold refresh_token_rejected, Token_init. unfold_monad.
  destruct (jwt_decode raw) as [c|]; [|by eauto].
  intros [Hexp|Hty].
  - rewrite bool_decide_eq_true_2 by done. by eauto.
  - case_bool_decide; [by eauto|].
    rewrite bool_decide_eq_false_2 by done. by eauto.
Qed.

(** C6.  A refresh request that carries an invalid or expired refresh
    token fails with the InvalidToken exception, which the framework
    renders as the 401 error with code token_not_valid; the world, and so
    every stored user with its last-login, is exactly as before.  Through
    the view the answer is a 401 in every case, the token_not_valid one
    for an authenticated caller. *)
Theorem refresh_invalid_token_rejected r w raw :
  data r !! "refresh" = Some raw →
  refresh_token_rejected raw (clock w) →
  ∃ msg,
    TokenRefreshAPIView.post r w = (Raise (InvalidToken msg), w)
    ∧ exception_handler (InvalidToken msg) = Some (invalid_token_response msg)
    ∧ status_code (invalid_token_response msg) = 401%Z
    ∧ (method r = POST →
       ∃ resp, TokenRefreshAPIView.as_view r w = (Return resp, w)
               ∧ status_code resp = 401%Z
               ∧ (is_Some (req_user r) → resp = invalid_token_response msg)).
Proof.
  intros Hraw Hrej.
  destruct (Token_init_rejected raw w Hrej) as [msg Hinit].
  assert (Hpost : TokenRefreshAPIView.post r w = (Raise (InvalidToken msg), w)).
  { unfold TokenRefreshAPIView.post, TokenRefreshSerializer_is_valid.
    rewrite Hraw. unfold_monad. by rewrite Hinit. }
  exists msg. split; [exact Hpost|]. split; [done|]. split; [done|].
  intros Hm. unfold TokenRefreshAPIView.as_view.
  destruct (req_user r) as [a|] eqn:Ha.
  - exists (invalid_token_response msg).
    destruct (principal_accepted r) as [Hc Hp]; [by eexists|].
    rewrite dispatch_post by done.
    by rewrite Hpost.
  - exists (unauthenticated_response r).
    unfold TokenRefreshAPIView.permission_classes.
    rewrite dispatch_unauthenticated by done.
    split; [done|]. split; [apply unauthenticated_status|]. by intros [? ?].
Qed.

End TokenRefresh.

(** ** Last-login and the reset tokens *)

Section LastLogin.
Context `{C : Collaborators}.






End LastLogin.

(** ** Profile *)

Section ProfileView.
Context `{C : Collaborators}.

Lemma profiles_of_user_owner uid ps p :
  profiles_of_user uid ps = [p] → profile_user p = uid.
Proof.
  intros Hf.
  assert (Hin : In p (profiles_of_user uid ps)) by (rewrite Hf; by left).
  apply filter_In in Hin as [_ Hp]. by apply bool_decide_eq_true in Hp.
Qed.

Lemma profile_view_method r w u :
  req_user r = Some u →
  ProfileAPIView.as_view r w =
    match method r with
    | GET =>
        let '(o, w') := ProfileAPIView.retrieve r w in (handle_exception o, w')
    | PATCH =>
        let '(o, w') := ProfileAPIView.update true r w in (handle_exception o, w')
    | _ => (Return method_not_allowed_response, w)
    end.
Proof.
  intros Hu.
  destruct (principal_accepted r) as [Hc Hp]; [by eexists|].
  unfold ProfileAPIView.as_view, ProfileAPIView.permission_classes, dispatch.
  rewrite Hp. unfold credentials_rejected in Hc.
  destruct (auth r); try done; by destruct (method r).
Qed.

(** C8.  For an authenticated caller the profile view works on the
    profile whose user is the caller, found through the caller's own id:
    GET returns that profile serialized; PATCH validates the body as a
    partial update, assigns the validated name when the body supplies one
    and keeps the old name otherwise, writes that one profile row with
    its keys as they were, answers with the row as written, and leaves
    every other profile row and every user row alone; any other method
    (PUT, the full-replace update, included) is answered 405 without
    touching the world.  The [id] in the URL plays no part: two requests
    that agree on caller, method and body get the same answer. *)
Theorem profile_view_own_profile_get_patch_only r w u p :
  req_user r = Some u →
  profiles_of_user (pk u) (profiles w) = [p] →
  profile_user p = pk u
  ∧ (method r = GET →
     ProfileAPIView.as_view r w
     = (Return (mkResponse (ProfileSerializer_data p) 200), w))
  ∧ (method r = PATCH →
     ∀ vd, ProfileSerializer_validate true (data r) = inr vd →
       ProfileAPIView.as_view r w
       = (Return (mkResponse
                    (ProfileSerializer_data (ProfileSerializer_update p vd)) 200),
          set_profiles
            (<[profile_id p := ProfileSerializer_update p vd]> (profiles w)) w)
       ∧ profile_user (ProfileSerializer_update p vd) = pk u
       ∧ profile_id (ProfileSerializer_update p vd) = profile_id p
       ∧ name (ProfileSerializer_update p vd) = default (name p) (vd !! "name")
       ∧ (∀ n, vd !! "name" = Some n →
            profiles (ProfileAPIView.as_view r w).2 !! profile_id p
            = Some (mkProfile (profile_id p) (pk u) n))
       ∧ (vd !! "name" = None →
            profiles (ProfileAPIView.as_view r w).2 !! profile_id p = Some p)
       ∧ (∀ k, k ≠ profile_id p →
            profiles (ProfileAPIView.as_view r w).2 !! k = profiles w !! k)
       ∧ users (ProfileAPIView.as_view r w).2 = users w)
  ∧ (method r ≠ GET → method r ≠ PATCH →
     ProfileAPIView.as_view r w = (Return method_not_allowed_response, w))
  ∧ (∀ r', req_user r' = req_user r → method r' = method r →
           data r' = data r →
           ProfileAPIView.as_view r' w = ProfileAPIView.as_view r w).
Proof.
  intros Hu Hp.
  pose proof (profiles_of_user_owner _ _ _ Hp) as Hown.
  split; [exact Hown|].
  pose proof (profile_view_method r w u Hu) as Hview.
  split; [|split; [|split]].
  - intros Hm. rewrite Hview, Hm.
    unfold ProfileAPIView.retrieve, ProfileAPIView.get_object,
      get_object_or_404_Profile, mk_Response.
    rewrite Hu. unfold_monad. by rewrite Hp.
  - intros Hm vd Hvd.
    assert (Hrun : ProfileAPIView.as_view r w
              = (Return (mkResponse
                           (ProfileSerializer_data (ProfileSerializer_update p vd))
                           200),
                 set_profiles
                   (<[profile_id p := ProfileSerializer_update p vd]>
                      (profiles w)) w)).
    { rewrite Hview, Hm.
      unfold ProfileAPIView.update, ProfileAPIView.get_object,
        get_object_or_404_Profile, Profile_save, mk_Response.
      rewrite Hu. unfold_monad. rewrite Hp. unfold_monad. by rewrite Hvd. }
    split; [exact Hrun|]. split; [done|]. split; [done|]. split; [done|].
    rewrite Hrun. simpl. split; [|split; [|split; [|done]]].
    + intros n Hn. rewrite lookup_insert_eq.
      unfold ProfileSerializer_update. by rewrite Hn, Hown.
    + intros Hn. rewrite lookup_insert_eq.
      unfold ProfileSerializer_update. rewrite Hn. by destruct p.
    + intros k Hk. by rewrite lookup_insert_ne.
  - intros Hg Hpa. rewrite Hview. by destruct (method r).
  - intros r' Hu' Hm' Hd'. rewrite Hu in Hu'.
    rewrite Hview, (profile_view_method r' w u Hu'), Hm'.
    unfold ProfileAPIView.retrieve, ProfileAPIView.update,
      ProfileAPIView.get_object.
    by rewrite Hu, Hu', Hd'.
Qed.

End ProfileView.

(** ** The properties on the reference instantiation *)

Section Witnesses.
Import Reference.


(** Alice logs in with her password at time 5000. *)
Lemma login_active_verified_witness :
  LoginAPIView.post (C := collaborators)
      (login_request "alice@example.org" "correct horse") world0
    = (Return (mkResponse
                 (JObj [("tokens", token_pair alice 5000);
                        ("user", user_payload alice)]) 200),
       with_last_login_now alice world0)
  ∧ users (with_last_login_now alice world0) !! 1%Z
    = Some (set_last_login (Some 5000%Z) alice).
Proof.
  destruct (login_active_verified_returns_tokens (C := collaborators)
              (login_request "alice@example.org" "correct horse") world0
              {[ "email" := "alice@example.org" ]} alice)
    as (Hpost & _).
  - vm_compute. reflexivity.
  - vm_compute. reflexivity.
  - reflexivity.
  - reflexivity.
  - split; [exact Hpost|]. vm_compute. reflexivity.
Defined.

(** Carol, inactive and unverified, logs in: the claim that every
    unverified user gets EMAIL_NOT_VERIFIED and a verification email
    fails on her. *)
Lemma login_unverified_inactive_counterexample :
  LoginSerializer_validate (Collaborators := collaborators) (users world0)
      (data (login_request "carol@example.org" "tr0ub4dor&3"))
    = inr {[ "email" := "carol@example.org" ]}
  ∧ email_resolves (users world0) (Some "carol@example.org") carol
  ∧ verified_email carol = false
  ∧ LoginAPIView.post (C := collaborators)
        (login_request "carol@example.org" "tr0ub4dor&3") world0
      = (Return (mkResponse
                   (JObj [("detail", JStr "Account is not active");
                          ("code", JStr "ACCOUNT_NOT_ACTIVE")]) 400),
         world0)
  ∧ ¬ (∃ d w',
         LoginAPIView.post (C := collaborators)
           (login_request "carol@example.org" "tr0ub4dor&3") world0
         = (Return (mkResponse
                      (JObj [("detail", JStr d);
                             ("code", JStr "EMAIL_NOT_VERIFIED")]) 400), w'))
  ∧ outbox (LoginAPIView.post (C := collaborators)
              (login_request "carol@example.org" "tr0ub4dor&3") world0).2 = [].
Proof.
  assert (Hpost : LoginAPIView.post (C := collaborators)
                    (login_request "carol@example.org" "tr0ub4dor&3") world0
                  = (Return (mkResponse
                               (JObj [("detail", JStr "Account is not active");
                                      ("code", JStr "ACCOUNT_NOT_ACTIVE")]) 400),
                     world0))
    by (vm_compute; reflexivity).
  split; [vm_compute; reflexivity|]. split; [vm_compute; reflexivity|].
  split; [reflexivity|]. split; [exact Hpost|]. split.
  - intros (d & w' & Heq). rewrite Hpost in Heq. discriminate Heq.
  - rewrite Hpost. reflexivity.
Qed.

(** Bob, active and unverified, logs in. *)
Lemma login_active_unverified_witness :
  LoginAPIView.post (C := collaborators)
      (login_request "bob@example.org" "battery staple") world0
    = (Return (mkResponse
                 (JObj [("detail", JStr "Email not verified");
                        ("code", JStr "EMAIL_NOT_VERIFIED")]) 400),
       push_mail (VerificationMail "bob@example.org" 2) world0).
Proof.
  destruct (login_active_unverified_resends (C := collaborators)
              (login_request "bob@example.org" "battery staple") world0
              {[ "email" := "bob@example.org" ]} bob)
    as (Hpost & _).
  - vm_compute. reflexivity.
  - vm_compute. reflexivity.
  - reflexivity.
  - reflexivity.
  - exact Hpost.
Defined.

(** Carol again, for the two statements about inactive users. *)
Lemma login_inactive_witness :
  LoginAPIView.post (C := collaborators)
      (login_request "carol@example.org" "tr0ub4dor&3") world0
    = (Return (mkResponse
                 (JObj [("detail", JStr "Account is not active");
                        ("code", JStr "ACCOUNT_NOT_ACTIVE")]) 400), world0).
Proof.
  destruct (login_inactive_rejected (C := collaborators)
              (login_request "carol@example.org" "tr0ub4dor&3") world0
              {[ "email" := "carol@example.org" ]} carol)
    as (Hpost & _).
  - vm_compute. reflexivity.
  - vm_compute. reflexivity.
  - reflexivity.
  - exact Hpost.
Defined.

Lemma login_inactive_unverified_witness :
  outbox (LoginAPIView.post (C := collaborators)
            (login_request "carol@example.org" "tr0ub4dor&3") world0).2
  = outbox world0.
Proof.
  destruct (login_inactive_unverified_no_mail (C := collaborators)
              (login_request "carol@example.org" "tr0ub4dor&3") world0
              {[ "email" := "carol@example.org" ]} carol)
    as (_ & _ & Hout).
  - vm_compute. reflexivity.
  - vm_compute. reflexivity.
  - reflexivity.
  - reflexivity.
  - exact Hout.
Defined.

(** Dave registers. *)
Lemma register_witness :
  ∃ u w',
    RegisterAPIView.create (C := collaborators) register_request world0
      = (Return (mkResponse (user_payload u) 201), w')
    ∧ users world0 !! pk u = None
    ∧ users w' !! pk u = Some u
    ∧ outbox w' = [VerificationMail "dave@example.org" (pk u)].
Proof.
  destruct (register_creates_user_201 (C := collaborators) register_request
              world0 (mkRegisterData "dave@example.org" "longenough" "Dave D."))
    as (u & w' & Hrun & Hnew & Hus & Hmail & _ & _ & _ & Hout & _).
  - vm_compute. reflexivity.
  - apply (bool_decide_unpack _). vm_compute. exact I.
  - exists u, w'. split; [exact Hrun|]. split; [exact Hnew|]. split.
    + rewrite Hus. apply lookup_insert_eq.
    + rewrite Hout, Hmail. reflexivity.
Defined.

(** Forget-password for alice's address and for an address nobody has,
    both sent by bob. *)
Lemma forget_password_witness :
  (ForgetPasswordView.as_view (C := collaborators)
     (forget_request "alice@example.org" (authenticated bob)) world0).1
  = (ForgetPasswordView.as_view (C := collaborators)
       (forget_request "nobody@example.org" (authenticated bob)) world0).1.
Proof.
  destruct (forget_password_same_response (C := collaborators)
              (forget_request "alice@example.org" (authenticated bob)) world0
              alice
              (forget_request "nobody@example.org" (authenticated bob)) world0)
    as (_ & _ & _ & Hview).
  - vm_compute. reflexivity.
  - exists 10%Z, (mkProfile 10 1 "Alice A."). split; vm_compute; reflexivity.
  - apply (bool_decide_unpack _). vm_compute. exact I.
  - assert (Hb : is_Some (Some bob)) by (eexists; reflexivity).
    destruct (Hview eq_refl eq_refl Hb Hb) as [H1 H2].
    rewrite H1, H2. reflexivity.
Defined.


(** The same request without credentials, and the confirmation with a
    bearer token the authenticators reject. *)
Lemma reset_flow_unauthenticated_witness :
  ForgetPasswordView.as_view (C := collaborators)
      (forget_request "alice@example.org" anonymous) world0
    = (Return not_authenticated_response, world0)
  ∧ ForgetResetPasswordView.as_view (C := collaborators)
      (mkRequest POST (data reset_confirm_request)
                 (rejected "Token is invalid or expired") None) world0
    = (Return (authentication_failed_response "Token is invalid or expired"),
       world0).
Proof.
  split.
  - destruct (reset_flow_requires_authentication (C := collaborators)
                (forget_request "alice@example.org" anonymous) world0)
      as (Hforget & _); [reflexivity|exact Hforget].
  - destruct (reset_flow_requires_authentication (C := collaborators)
                (mkRequest POST (data reset_confirm_request)
                   (rejected "Token is invalid or expired") None) world0)
      as (_ & _ & Hconfirm & _); [reflexivity|exact Hconfirm].
Defined.

(** A refresh with the expired token. *)
Lemma refresh_expired_witness :
  ∃ msg,
    TokenRefreshAPIView.post (C := collaborators)
        (refresh_request expired_refresh) world0
      = (Raise (InvalidToken msg), world0).
Proof.
  destruct (refresh_invalid_token_rejected (C := collaborators)
              (refresh_request expired_refresh) world0 expired_refresh)
    as (msg & Hpost & _).
  - vm_compute. reflexivity.
  - unfold refresh_token_rejected.
    replace (jwt_decode (Collaborators := collaborators) expired_refresh)
      with (Some (mkClaims refresh_type 1 4000)) by (vm_compute; reflexivity).
    left. simpl. lia.
  - exists msg. exact Hpost.
Defined.


(** Alice reads her profile and patches her name under a foreign id in
    the URL, and tries PUT. *)
Lemma profile_view_witness :
  ProfileAPIView.as_view (C := collaborators) (profile_request GET ∅) world0
    = (Return (mkResponse (profile_payload (mkProfile 10 1 "Alice A.")) 200),
       world0)
  ∧ (ProfileAPIView.as_view (C := collaborators)
       (profile_request PATCH {[ "name" := "Al" ]}) world0
     = (Return (mkResponse (profile_payload (mkProfile 10 1 "Al")) 200),
        set_profiles (<[10%Z := mkProfile 10 1 "Al"]> (profiles world0)) world0)
     ∧ profiles (ProfileAPIView.as_view (C := collaborators)
                   (profile_request PATCH {[ "name" := "Al" ]}) world0).2
         !! 10%Z = Some (mkProfile 10 1 "Al")
     ∧ profiles (ProfileAPIView.as_view (C := collaborators)
                   (profile_request PATCH {[ "name" := "Al" ]}) world0).2
         !! 20%Z = Some (mkProfile 20 2 "Bob B."))
  ∧ ProfileAPIView.as_view (C := collaborators)
      (profile_request PUT {[ "name" := "Al" ]}) world0
    = (Return method_not_allowed_response, world0).
Proof.
  split; [|split].
  - destruct (profile_view_own_profile_get_patch_only (C := collaborators)
                (profile_request GET ∅) world0 alice (mkProfile 10 1 "Alice A."))
      as (_ & Hget & _).
    + reflexivity.
    + vm_compute. reflexivity.
    + apply Hget. reflexivity.
  - destruct (profile_view_own_profile_get_patch_only (C := collaborators)
                (profile_request PATCH {[ "name" := "Al" ]}) world0 alice
                (mkProfile 10 1 "Alice A."))
      as (_ & _ & Hpatch & _).
    + reflexivity.
    + vm_compute. reflexivity.
    + destruct (Hpatch eq_refl {[ "name" := "Al" ]})
        as (Hrun & _ & _ & _ & Hnew & _ & Hother & _).
      * vm_compute. reflexivity.
      * split; [exact Hrun|]. split.
        -- apply (Hnew "Al"). vm_compute. reflexivity.
        -- rewrite (Hother 20%Z) by discriminate. vm_compute. reflexivity.
  - destruct (profile_view_own_profile_get_patch_only (C := collaborators)
                (profile_request PUT {[ "name" := "Al" ]}) world0 alice
                (mkProfile 10 1 "Alice A."))
      as (_ & _ & _ & Hother & _).
    + reflexivity.
    + vm_compute. reflexivity.
    + apply Hother; discriminate.
Defined.

End Witnesses.

(** ** Further properties of the views *)

Section MoreFramework.

Lemma dispatch_rejected ps ms hs r w msg :
  auth r = rejected msg →
  dispatch ps ms hs r w = (Return (authentication_failed_response msg), w).
Proof. intros Ha. unfold dispatch. by rewrite Ha. Qed.

Lemma dispatch_not_post ps h r w :
  credentials_rejected r = false →
  check_permissions ps r = true →
  method r ≠ POST →
  dispatch ps all_methods (only_post h) r w
  = (Return method_not_allowed_response, w).
Proof.
  intros Hc Hp Hm. unfold dispatch, credentials_rejected in *. rewrite Hp.
  destruct (auth r); try done; by destruct (method r).
Qed.

Lemma filter_Permutation_list {A} (f : A → bool) (l l' : list A) :
  l ≡ₚ l' → List.filter f l ≡ₚ List.filter f l'.
Proof.
  induction 1 as [|x l l' _ IH|x y l|l l' l'' _ IH1 _ IH2]; simpl.
  - done.
  - destruct (f x); [by constructor|done].
  - destruct (f x), (f y); try done. apply perm_swap.
  - by etrans.
Qed.

(** The rows of a table in which the row under [k] has been replaced,
    against the rows before. *)
Lemma rows_replace {A} (m : gmap Z A) k a a' :
  m !! k = Some a →
  (map_to_list m).*2 ≡ₚ a :: (map_to_list (delete k m)).*2
  ∧ (map_to_list (<[k:=a']> m)).*2 ≡ₚ a' :: (map_to_list (delete k m)).*2.
Proof.
  intros Hk. split.
  - rewrite <- (map_to_list_delete m k a Hk). done.
  - rewrite <- insert_delete_eq.
    rewrite map_to_list_insert by apply lookup_delete_eq. done.
Qed.

Lemma rows_insert_fresh {A} (m : gmap Z A) k a :
  m !! k = None →
  (map_to_list (<[k:=a]> m)).*2 ≡ₚ a :: (map_to_list m).*2.
Proof. intros Hk. by rewrite map_to_list_insert. Qed.

(** Replacing the stored row of a user by one with the same email keeps
    the email resolving, now to the new row. *)
Lemma email_resolves_replace us e u u' :
  email_resolves us e u →
  us !! pk u = Some u →
  email u' = email u →
  email_resolves (<[pk u := u']> us) e u'.
Proof.
  unfold email_resolves, users_with_email. intros Hres Hk He.
  assert (Hu : email_matches e u = true).
  { assert (Hin : In u (List.filter (email_matches e) (map_to_list us).*2))
      by (rewrite Hres; by left).
    by apply filter_In in Hin as [_ Hin]. }
  assert (Hm : email_matches e u' = true).
  { rewrite <- Hu. unfold email_matches. destruct e; [|done]. by rewrite He. }
  destruct (rows_replace us (pk u) u u' Hk) as [Hold Hnew].
  apply (filter_Permutation_list (email_matches e)) in Hold, Hnew.
  rewrite Hres in Hold. simpl in Hold, Hnew. rewrite Hu in Hold.
  rewrite Hm in Hnew.
  apply Permutation_cons_inv, Permutation_nil_l in Hold.
  rewrite <- Hold in Hnew. by apply Permutation_singleton_r in Hnew.
Qed.

End MoreFramework.

Section MoreLogin.
Context `{C : Collaborators}.

(** X1.  A login whose body the serializer rejects raises the validation
    error before any lookup: the view answers 400 with the field errors
    and the world is exactly as before (no row written, no mail). *)
Theorem login_validation_failure r w errs :
  LoginSerializer_validate (users w) (data r) = inl errs →
  LoginAPIView.post r w = (Raise (ValidationError errs), w)
  ∧ (method r = POST → credentials_rejected r = false →
     LoginAPIView.as_view r w = (Return (mkResponse errs 400), w)).
Proof.
  intros Hval.
  assert (Hpost : LoginAPIView.post r w = (Raise (ValidationError errs), w)).
  { unfold LoginAPIView.post. unfold_monad. by rewrite Hval. }
  split; [done|]. intros Hm Hc.
  rewrite login_as_view by done. by rewrite Hpost.
Qed.

(** X2.  The lookup of the login view is not guarded: when the validated
    email matches no stored user, User.DoesNotExist leaves the handler,
    the exception handler of the framework does not turn it into a
    response, and the view ends in a server error; the world is as
    before. *)
Theorem login_unknown_email_uncaught r w vd :
  LoginSerializer_validate (users w) (data r) = inr vd →
  email_unknown (users w) (vd !! "email") →
  LoginAPIView.post r w = (Raise User_DoesNotExist, w)
  ∧ exception_handler User_DoesNotExist = None
  ∧ (method r = POST → credentials_rejected r = false →
     LoginAPIView.as_view r w = (Raise User_DoesNotExist, w)).
Proof.
  intros Hval Hun. apply users_with_email_unknown in Hun.
  assert (Hpost : LoginAPIView.post r w = (Raise User_DoesNotExist, w)).
  { unfold LoginAPIView.post, User_objects_get. unfold_monad.
    rewrite Hval. by rewrite Hun. }
  split; [done|]. split; [done|]. intros Hm Hc.
  rewrite login_as_view by done. by rewrite Hpost.
Qed.

(** X3.  Whatever the request, the login handler changes the world in one
    of three ways only: a 200 answer with the last-login of one stored
    user set to the current time and nothing else; a 400 answer with one
    verification mail handed over and no row written; or no change at
    all.  Profiles and the clock are never touched. *)
Theorem login_world_effects r w :
  ((∃ resp u, LoginAPIView.post r w = (Return resp, with_last_login_now u w)
              ∧ status_code resp = 200%Z
              ∧ u ∈ (map_to_list (users w)).*2)
   ∨ (∃ resp u, LoginAPIView.post r w
                = (Return resp, push_mail (VerificationMail (email u) (pk u)) w)
                ∧ status_code resp = 400%Z)
   ∨ (LoginAPIView.post r w).2 = w)
  ∧ profiles (LoginAPIView.post r w).2 = profiles w
  ∧ clock (LoginAPIView.post r w).2 = clock w.
Proof.
  unfold LoginAPIView.post, User_objects_get, User_save,
    send_verification_email, mk_Response.
  unfold_monad.
  destruct (LoginSerializer_validate _ _) as [errs|vd]; [by auto|].
  destruct (users_with_email _ _) as [|u [|u2 l]] eqn:Hf; [by auto| |by auto].
  destruct (is_active u), (verified_email u); simpl; (split; [|done]).
  - left. eexists _, u. split; [done|]. split; [done|].
    assert (Hin : In u (users_with_email (vd !! "email") (users w)))
      by (rewrite Hf; by left).
    apply filter_In in Hin as [Hin _]. by apply list_elem_of_In.
  - right; left. by eexists _, u.
  - by right; right.
  - by right; right.
Qed.

End MoreLogin.

Section MoreLoginWitnesses.
Import Reference.

(** Carol with a wrong password. *)
Lemma login_validation_failure_witness :
  LoginAPIView.as_view (C := collaborators)
      (login_request "carol@example.org" "wrong") world0
    = (Return (mkResponse
                 (JObj [("detail",
                         JStr "Unable to log in with provided credentials.")])
                 400), world0).
Proof.
  destruct (login_validation_failure (C := collaborators)
              (login_request "carol@example.org" "wrong") world0
              (JObj [("detail",
                      JStr "Unable to log in with provided credentials.")]))
    as (_ & Hview).
  - vm_compute. reflexivity.
  - apply Hview; reflexivity.
Defined.

(** A serializer that lets any email through, and a login for an address
    nobody has. *)
Lemma login_unknown_email_witness :
  LoginAPIView.as_view (C := ReferenceVerification.open_login)
      (login_request "nobody@example.org" "whatever") world0
    = (Raise User_DoesNotExist, world0).
Proof.
  destruct (login_unknown_email_uncaught (C := ReferenceVerification.open_login)
              (login_request "nobody@example.org" "whatever") world0
              (data (login_request "nobody@example.org" "whatever")))
    as (_ & _ & Hview).
  - reflexivity.
  - apply (bool_decide_unpack _). vm_compute. exact I.
  - apply Hview; reflexivity.
Defined.

End MoreLoginWitnesses.

Section MoreTokens.
Context `{C : Collaborators}.

Lemma Token_init_accepts ty raw c w :
  jwt_decode raw = Some c →
  token_type c = ty →
  (clock w < exp c)%Z →
  Token_init ty raw w = (Return c, w).
Proof.
  intros Hd Hty Hexp. unfold Token_init. unfold_monad. rewrite Hd.
  rewrite bool_decide_eq_false_2 by lia.
  by rewrite bool_decide_eq_true_2.
Qed.

Lemma get_validated_token_accepts raw c w :
  jwt_decode raw = Some c →
  token_type c = access_type →
  (clock w < exp c)%Z →
  get_validated_token (Some raw) w = (Return c, w).
Proof.
  intros Hd Hty Hexp. unfold get_validated_token, try_except.
  by rewrite (Token_init_accepts access_type raw c w).
Qed.

Lemma get_validated_token_rejects raw w :
  access_token_rejected raw (clock w) →
  get_validated_token raw w
  = (Raise (InvalidToken "Given token not valid for any token type"), w).
Proof.
  unfold access_token_rejected, get_validated_token, Token_init.
  destruct raw as [s|]; [|done]. unfold_monad.
  destruct (jwt_decode s) as [c|]; [|done].
  intros [Hexp|Hty].
  - by rewrite bool_decide_eq_true_2.
  - case_bool_decide; [done|]. by rewrite bool_decide_eq_false_2.
Qed.

Lemma token_verify_as_view r w :
  method r = POST →
  is_Some (req_user r) →
  TokenVerifyAPIView.as_view r w
  = (handle_exception (TokenVerifyAPIView.post r w).1,
     (TokenVerifyAPIView.post r w).2).
Proof.
  intros Hm [Hc Hp]%principal_accepted. by apply dispatch_post.
Qed.

(** X4.  Token verification with a well-signed, unexpired access token in
    the body whose user is stored and active returns 200 with that user's
    serialized payload and writes nothing.  The user returned is the one
    the token in the body names, whoever the authenticated caller is. *)
Theorem token_verify_returns_token_user r w raw c u :
  data r !! "token" = Some raw →
  jwt_decode raw = Some c →
  token_type c = access_type →
  (clock w < exp c)%Z →
  users w !! user_id c = Some u →
  is_active u = true →
  TokenVerifyAPIView.post r w
    = (Return (mkResponse (UserSerializer_data u) 200), w)
  ∧ (method r = POST → is_Some (req_user r) →
     TokenVerifyAPIView.as_view r w
     = (Return (mkResponse (UserSerializer_data u) 200), w)).
Proof.
  intros Hraw Hd Hty Hexp Hu Ha.
  assert (Hpost : TokenVerifyAPIView.post r w
                  = (Return (mkResponse (UserSerializer_data u) 200), w)).
  { unfold TokenVerifyAPIView.post. rewrite Hraw. unfold mbind, M_bind, bind.
    rewrite (get_validated_token_accepts raw c w) by done.
    unfold get_user. unfold_monad. by rewrite Hu, Ha. }
  split; [done|]. intros Hm Hp.
  rewrite token_verify_as_view by done. by rewrite Hpost.
Qed.

(** X5.  Token verification without a token in the body, or with one
    that does not verify, has expired or is not an access token (a refresh
    token, say), fails with InvalidToken: the view answers 401 with code
    token_not_valid and writes nothing. *)
Theorem token_verify_rejects_bad_token r w :
  access_token_rejected (data r !! "token") (clock w) →
  TokenVerifyAPIView.post r w
    = (Raise (InvalidToken "Given token not valid for any token type"), w)
  ∧ (method r = POST → is_Some (req_user r) →
     TokenVerifyAPIView.as_view r w
     = (Return (invalid_token_response
                  "Given token not valid for any token type"), w)).
Proof.
  intros Hrej.
  assert (Hpost : TokenVerifyAPIView.post r w
            = (Raise (InvalidToken "Given token not valid for any token type"),
               w)).
  { unfold TokenVerifyAPIView.post. unfold mbind, M_bind, bind.
    by rewrite get_validated_token_rejects. }
  split; [done|]. intros Hm Hp.
  rewrite token_verify_as_view by done. by rewrite Hpost.
Qed.

(** X6.  A valid access token whose user has been deleted or deactivated
    does not verify: the handler raises AuthenticationFailed (401), and in
    no case at all does token verification write to the world. *)
Theorem token_verify_missing_or_inactive_user r w raw c :
  data r !! "token" = Some raw →
  jwt_decode raw = Some c →
  token_type c = access_type →
  (clock w < exp c)%Z →
  (users w !! user_id c = None
   ∨ ∃ u, users w !! user_id c = Some u ∧ is_active u = false) →
  (∃ msg, TokenVerifyAPIView.post r w = (Raise (AuthenticationFailed msg), w)
          ∧ exception_handler (AuthenticationFailed msg)
            = Some (authentication_failed_response msg))
  ∧ (∀ r' w', (TokenVerifyAPIView.post r' w').2 = w').
Proof.
  intros Hraw Hd Hty Hexp Hu. split.
  - unfold TokenVerifyAPIView.post. rewrite Hraw. unfold mbind, M_bind, bind.
    rewrite (get_validated_token_accepts raw c w) by done.
    unfold get_user. unfold_monad.
    destruct Hu as [Hu|(u & Hu & Ha)]; rewrite Hu; [by eauto|].
    rewrite Ha. by eauto.
  - intros r' w'.
    unfold TokenVerifyAPIView.post, get_validated_token, Token_init, get_user,
      mk_Response.
    destruct (data r' !! "token") as [s|]; unfold_monad; [|done].
    destruct (jwt_decode s) as [c'|]; [|done].
    repeat (case_bool_decide; try done).
    destruct (users w' !! user_id c') as [u|]; [|done].
    by destruct (is_active u).
Qed.

(** The access token minted by the refresh serializer passes the check
    of the view when the JWT library decodes what it encodes and the
    access lifetime is positive. *)
Lemma refresh_reaches_user r w raw c :
  data r !! "refresh" = Some raw →
  jwt_decode raw = Some c →
  token_type c = refresh_type →
  (clock w < exp c)%Z →
  jwt_decode (jwt_encode (minted_access c (clock w)))
    = Some (minted_access c (clock w)) →
  (0 < ACCESS_TOKEN_LIFETIME)%Z →
  TokenRefreshAPIView.post r w =
    match users w !! user_id c with
    | None => (Raise (AuthenticationFailed "User not found"), w)
    | Some u =>
        if is_active u then
          (Return (mkResponse
                     (JObj [("access",
                             JStr (jwt_encode (minted_access c (clock w))))])
                     200),
           with_last_login_now u w)
        else (Raise (AuthenticationFailed "User is inactive"), w)
    end.
Proof.
  intros Hraw Hd Hty Hexp Hround Hlife.
  unfold TokenRefreshAPIView.post, TokenRefreshSerializer_is_valid.
  rewrite Hraw. unfold mbind, M_bind, bind, try_except.
  rewrite (Token_init_accepts refresh_type raw c w) by done.
  unfold_monad. rewrite lookup_singleton_eq.
  fold (minted_access c (clock w)).
  rewrite (get_validated_token_accepts _ (minted_access c (clock w)) w)
    by (done || simpl; lia).
  unfold get_user, User_save, mk_Response. unfold_monad. simpl.
  destruct (users w !! user_id c) as [u|]; [|done].
  destruct (is_active u); [|done]. simpl.
  by rewrite map_to_list_singleton.
Qed.

(** X7.  A refresh with a well-signed, unexpired refresh token of a stored
    active user, given a JWT library that decodes what it encodes and a
    positive access lifetime, returns 200 with a body holding exactly the
    new access token, issued to the same user and expiring one access
    lifetime from now; the only write is that user's last-login. *)
Theorem refresh_returns_access_token r w raw c u :
  data r !! "refresh" = Some raw →
  jwt_decode raw = Some c →
  token_type c = refresh_type →
  (clock w < exp c)%Z →
  jwt_decode (jwt_encode (minted_access c (clock w)))
    = Some (minted_access c (clock w)) →
  (0 < ACCESS_TOKEN_LIFETIME)%Z →
  users w !! user_id c = Some u →
  is_active u = true →
  TokenRefreshAPIView.post r w
    = (Return (mkResponse
                 (JObj [("access",
                         JStr (jwt_encode
                                 (mkClaims access_type (user_id c)
                                    (clock w + ACCESS_TOKEN_LIFETIME))))])
                 200),
       with_last_login_now u w).
Proof.
  intros Hraw Hd Hty Hexp Hround Hlife Hu Ha.
  rewrite (refresh_reaches_user r w raw c) by done.
  by rewrite Hu, Ha.
Qed.

(** X9.  A refresh request without the [refresh] field is a validation
    error, not a token error: the handler raises ValidationError, the view
    answers 400 rather than 401, and nothing is written. *)
Theorem refresh_missing_field r w :
  data r !! "refresh" = None →
  (∃ errs, TokenRefreshAPIView.post r w = (Raise (ValidationError errs), w)
           ∧ (method r = POST → is_Some (req_user r) →
              TokenRefreshAPIView.as_view r w
              = (Return (mkResponse errs 400), w))).
Proof.
  intros Hraw. eexists.
  assert (Hpost : TokenRefreshAPIView.post r w
            = (Raise (ValidationError
                        (JObj [("refresh", JStr "This field is required.")])),
               w)).
  { unfold TokenRefreshAPIView.post, TokenRefreshSerializer_is_valid.
    rewrite Hraw. by unfold_monad. }
  split; [exact Hpost|]. intros Hm [Hc Hp]%principal_accepted.
  unfold TokenRefreshAPIView.as_view. rewrite dispatch_post by done.
  by rewrite Hpost.
Qed.

End MoreTokens.

Section MoreTokenWitnesses.
Import Reference ReferenceVerification.

(** Bob, authenticated, asks about alice's access token. *)
Lemma token_verify_witness :
  TokenVerifyAPIView.as_view (C := collaborators)
      (token_verify_request {[ "token" := access_for_alice ]}) world0
    = (Return (mkResponse (user_payload alice) 200), world0).
Proof.
  destruct (token_verify_returns_token_user (C := collaborators)
              (token_verify_request {[ "token" := access_for_alice ]}) world0
              access_for_alice (mkClaims access_type 1 9000) alice)
    as (_ & Hview).
  - vm_compute. reflexivity.
  - vm_compute. reflexivity.
  - reflexivity.
  - simpl. lia.
  - vm_compute. reflexivity.
  - reflexivity.
  - apply Hview; [reflexivity|by eexists].
Defined.

(** Alice's refresh token offered as an access token. *)
Lemma token_verify_refresh_token_witness :
  TokenVerifyAPIView.as_view (C := collaborators)
      (token_verify_request {[ "token" := good_refresh ]}) world0
    = (Return (invalid_token_response
                 "Given token not valid for any token type"), world0).
Proof.
  destruct (token_verify_rejects_bad_token (C := collaborators)
              (token_verify_request {[ "token" := good_refresh ]}) world0)
    as (_ & Hview).
  - unfold access_token_rejected.
    replace (data (token_verify_request {[ "token" := good_refresh ]})
               !! "token") with (Some good_refresh) by (vm_compute; reflexivity).
    replace (jwt_decode (Collaborators := collaborators) good_refresh)
      with (Some (mkClaims refresh_type 1 9000)) by (vm_compute; reflexivity).
    right. discriminate.
  - apply Hview; [reflexivity|by eexists].
Defined.

(** An access token for carol, who is inactive. *)
Lemma token_verify_inactive_witness :
  ∃ msg,
    TokenVerifyAPIView.post (C := collaborators)
        (token_verify_request
           {[ "token" := to_text (mkClaims access_type 3 9000) ]}) world0
      = (Raise (AuthenticationFailed msg), world0).
Proof.
  destruct (token_verify_missing_or_inactive_user (C := collaborators)
              (token_verify_request
                 {[ "token" := to_text (mkClaims access_type 3 9000) ]})
              world0 (to_text (mkClaims access_type 3 9000))
              (mkClaims access_type 3 9000))
    as ((msg & Hpost & _) & _).
  - vm_compute. reflexivity.
  - vm_compute. reflexivity.
  - reflexivity.
  - simpl. lia.
  - right. exists carol. split; [vm_compute; reflexivity|reflexivity].
  - exists msg. exact Hpost.
Defined.

(** Alice refreshes at 5000 with the token good until 9000. *)
Lemma refresh_success_witness :
  TokenRefreshAPIView.post (C := collaborators)
      (refresh_request good_refresh) world0
    = (Return (mkResponse
                 (JObj [("access",
                         JStr (to_text (mkClaims access_type 1 5300)))]) 200),
       with_last_login_now alice world0).
Proof.
  apply (refresh_returns_access_token (C := collaborators)
           (refresh_request good_refresh) world0 good_refresh
           (mkClaims refresh_type 1 9000) alice).
  - vm_compute. reflexivity.
  - vm_compute. reflexivity.
  - reflexivity.
  - simpl. lia.
  - vm_compute. reflexivity.
  - simpl. lia.
  - vm_compute. reflexivity.
  - reflexivity.
Defined.

(** A refresh request with an empty body. *)
Lemma refresh_missing_field_witness :
  ∃ errs,
    TokenRefreshAPIView.as_view (C := collaborators)
        (post_request ∅ (authenticated alice)) world0
      = (Return (mkResponse errs 400), world0).
Proof.
  destruct (refresh_missing_field (C := collaborators)
              (post_request ∅ (authenticated alice)) world0)
    as (errs & _ & Hview).
  - reflexivity.
  - exists errs. apply Hview; [reflexivity|by eexists].
Defined.

End MoreTokenWitnesses.

Section MoreVerification.
Context `{C : Collaborators} `{V : VerificationSerializers}.

Lemma verify_email_run r w u :
  EmailTokenValidateSerializer_validate (users w) (data r) = inr u →
  ValidateEmailVerificationTokenView.post r w
  = (Return (mkResponse (UserSerializer_data (set_verified_email true u)) 200),
     set_users (<[pk u := set_verified_email true u]> (users w)) w).
Proof.
  intros Hval.
  unfold ValidateEmailVerificationTokenView.post, User_save, mk_Response.
  unfold_monad. by rewrite Hval.
Qed.

(** X10.  Validating an email-verification token for which the
    serializer hands over the stored row of a user rewrites that row with
    the verified flag set and every other column (email, password, active
    flag, last-login) as it was stored; every other user row, the
    profiles and the outbox are untouched, and the 200 answer carries the
    payload of the row as written (flag set). *)
Theorem verify_email_sets_flag r w u :
  EmailTokenValidateSerializer_validate (users w) (data r) = inr u →
  users w !! pk u = Some u →
  ∃ old new w',
    users w !! pk u = Some old
    ∧ ValidateEmailVerificationTokenView.post r w
      = (Return (mkResponse (UserSerializer_data new) 200), w')
    ∧ users w' !! pk u = Some new
    ∧ verified_email new = true
    ∧ (pk new, email new, password new, is_active new, last_login new)
      = (pk old, email old, password old, is_active old, last_login old)
    ∧ (∀ k, k ≠ pk u → users w' !! k = users w !! k)
    ∧ outbox w' = outbox w ∧ profiles w' = profiles w
    ∧ (method r = POST → credentials_rejected r = false →
       ValidateEmailVerificationTokenView.as_view r w
       = (Return (mkResponse (UserSerializer_data new) 200), w')).
Proof.
  intros Hval Hstored. pose proof (verify_email_run r w u Hval) as Hrun.
  exists u. eexists _, _. split; [exact Hstored|]. split; [exact Hrun|].
  simpl. split; [apply lookup_insert_eq|]. split; [done|]. split; [done|].
  split; [intros k Hk; by rewrite lookup_insert_ne|].
  split; [done|]. split; [done|].
  intros Hm Hc. unfold ValidateEmailVerificationTokenView.as_view.
  rewrite dispatch_post by done. by rewrite Hrun.
Qed.

(** X11.  Verification unlocks login.  Let the serializer accept a
    verification token for an active user stored under its own key.  In
    the world the verification leaves behind, a login that passes
    validation for that user's email, which before resolved to the
    unverified row, resolves to the verified row and succeeds with 200,
    tokens and payload. *)
Theorem verify_email_then_login r1 r2 w u vd :
  EmailTokenValidateSerializer_validate (users w) (data r1) = inr u →
  users w !! pk u = Some u →
  is_active u = true →
  LoginSerializer_validate
    (users (ValidateEmailVerificationTokenView.post r1 w).2) (data r2)
    = inr vd →
  email_resolves (users w) (vd !! "email") u →
  LoginAPIView.post r2 (ValidateEmailVerificationTokenView.post r1 w).2
  = (Return (mkResponse
               (JObj [("tokens",
                       get_tokens_for_user (set_verified_email true u) (clock w));
                      ("user", UserSerializer_data (set_verified_email true u))])
               200),
     with_last_login_now (set_verified_email true u)
       (ValidateEmailVerificationTokenView.post r1 w).2).
Proof.
  intros Hval Hk Ha Hlogin Hres.
  rewrite (verify_email_run r1 w u Hval) in *. simpl in *.
  pose proof (email_resolves_replace (users w) (vd !! "email") u
                (set_verified_email true u) Hres Hk eq_refl) as Hres'.
  rewrite (login_post_resolved r2 _ vd (set_verified_email true u))
    by done.
  simpl. by rewrite Ha.
Qed.

(** The resend handler, once its serializer has validated the request
    and named a user, hands exactly one verification mail for that user to
    the mail service and answers 200 with the fixed message; it writes no
    row and does not itself look at the verified flag.  When the
    serializer rejects the request nothing is sent. *)
Lemma resend_sends_one_mail r w :
  match ResendEmailSerializer_validate (users w) (data r) with
  | inr u =>
      ResendEmailVerificationView.post r w
      = (Return resend_response,
         push_mail (VerificationMail (email u) (pk u)) w)
  | inl errs =>
      ResendEmailVerificationView.post r w = (Raise (ValidationError errs), w)
  end.
Proof.
  unfold ResendEmailVerificationView.post, send_verification_email,
    mk_Response.
  unfold_monad.
  by destruct (ResendEmailSerializer_validate _ _).
Qed.

End MoreVerification.

Section MoreVerificationWitnesses.
Import Reference ReferenceVerification.

(** Bob verifies his email. *)
Lemma verify_email_witness :
  ∃ new w',
    ValidateEmailVerificationTokenView.as_view
        (C := collaborators) (V := serializers) verify_email_request world0
      = (Return (mkResponse (user_payload new) 200), w')
    ∧ users w' !! 2%Z = Some new
    ∧ verified_email new = true
    ∧ (email new, last_login new) = ("bob@example.org", None)
    ∧ users w' !! 1%Z = Some alice.
Proof.
  destruct (verify_email_sets_flag (C := collaborators) (V := serializers)
              verify_email_request world0 bob)
    as (old & new & w' & Hold & _ & Hnew & Hv & Hcols & Hothers & _ & _ & Hview).
  - vm_compute. reflexivity.
  - vm_compute. reflexivity.
  - exists new, w'. split; [apply Hview; reflexivity|].
    split; [exact Hnew|]. split; [exact Hv|]. split.
    + replace (users world0 !! pk bob) with (Some bob) in Hold
        by (vm_compute; reflexivity).
      injection Hold as <-. injection Hcols as _ He _ _ Hl.
      rewrite He, Hl. reflexivity.
    + rewrite (Hothers 1%Z) by discriminate. vm_compute. reflexivity.
Defined.

(** Bob verifies his email and then logs in. *)
Lemma verify_email_then_login_witness :
  (LoginAPIView.post (C := collaborators)
     (login_request "bob@example.org" "battery staple")
     (ValidateEmailVerificationTokenView.post
        (C := collaborators) (V := serializers) verify_email_request world0).2).1
  = Return (mkResponse
              (JObj [("tokens", token_pair bob 5000);
                     ("user", user_payload (set_verified_email true bob))])
              200).
Proof.
  rewrite (verify_email_then_login (C := collaborators) (V := serializers)
             verify_email_request
             (login_request "bob@example.org" "battery staple") world0 bob
             {[ "email" := "bob@example.org" ]}).
  - reflexivity.
  - vm_compute. reflexivity.
  - vm_compute. reflexivity.
  - reflexivity.
  - vm_compute. reflexivity.
  - vm_compute. reflexivity.
Defined.

End MoreVerificationWitnesses.

Section MoreRegister.
Context `{C : Collaborators}.

Lemma users_with_email_known us e k u :
  us !! k = Some u → email u = e → users_with_email (Some e) us ≠ [].
Proof.
  intros Hk He Hnil.
  assert (Hin : In u (users_with_email (Some e) us)).
  { apply filter_In. split.
    - apply list_elem_of_In, list_elem_of_fmap. exists (k, u).
      split; [done|]. by apply elem_of_map_to_list.
    - simpl. by apply bool_decide_eq_true. }
  by rewrite Hnil in Hin.
Qed.

Lemma register_as_view r w :
  method r = POST →
  credentials_rejected r = false →
  RegisterAPIView.as_view r w
  = (handle_exception (RegisterAPIView.create r w).1,
     (RegisterAPIView.create r w).2).
Proof. intros Hm Hc. by apply dispatch_post. Qed.

(** X22.  A registration that fails validation, because the schema
    rejects the body or because a stored user already has the email,
    raises the validation error before anything is saved or sent: the view
    answers 400 and the world is exactly as before (no user row, no
    profile, no mail). *)
Theorem register_invalid_creates_nothing r w :
  ((∃ errs, RegisterSerializer_schema (data r) = inl errs)
   ∨ (∃ rd k u, RegisterSerializer_schema (data r) = inr rd
                ∧ users w !! k = Some u ∧ email u = reg_email rd)) →
  ∃ errs,
    RegisterAPIView.create r w = (Raise (ValidationError errs), w)
    ∧ (method r = POST → credentials_rejected r = false →
       RegisterAPIView.as_view r w = (Return (mkResponse errs 400), w)).
Proof.
  intros Hbad.
  assert (∃ errs, RegisterAPIView.create r w = (Raise (ValidationError errs), w))
    as [errs Hrun].
  { unfold RegisterAPIView.create, RegisterSerializer_is_valid. unfold_monad.
    destruct Hbad as [[errs Hs]|(rd & k & u & Hs & Hk & He)]; rewrite Hs.
    - by eauto.
    - pose proof (users_with_email_known _ _ _ _ Hk He) as Hne.
      destruct (users_with_email _ _); [done|by eauto]. }
  exists errs. split; [done|]. intros Hm Hc.
  rewrite register_as_view by done. by rewrite Hrun.
Qed.

Lemma register_create_run r w rd :
  RegisterSerializer_schema (data r) = inr rd →
  email_unknown (users w) (Some (reg_email rd)) →
  let u := mkUser (fresh_key (users w)) (reg_email rd)
                  (make_password (reg_password rd)) true false None in
  RegisterAPIView.create r w
  = (Return (mkResponse (UserSerializer_data u) 201),
     push_mail (VerificationMail (email u) (pk u))
       (set_profiles
          (<[fresh_key (profiles w) :=
               mkProfile (fresh_key (profiles w)) (pk u) (reg_name rd)]>
             (profiles w))
          (set_users (<[pk u := u]> (users w)) w))).
Proof.
  intros Hs Hun u. apply users_with_email_unknown in Hun.
  unfold RegisterAPIView.create, RegisterSerializer_is_valid,
    RegisterSerializer_save, send_verification_email, User_save,
    Profile_save, mk_Response.
  unfold_monad. rewrite Hs. unfold_monad. by rewrite Hun.
Qed.

Lemma email_resolves_fresh us e u :
  email_unknown us (Some e) →
  us !! pk u = None →
  email u = e →
  email_resolves (<[pk u := u]> us) (Some e) u.
Proof.
  intros Hun Hk He. apply users_with_email_unknown in Hun.
  unfold email_resolves, users_with_email in *.
  pose proof (rows_insert_fresh us (pk u) u Hk) as Hrows.
  apply (filter_Permutation_list (email_matches (Some e))) in Hrows.
  simpl in Hrows. rewrite bool_decide_eq_true_2 in Hrows by done.
  rewrite Hun in Hrows. by apply Permutation_singleton_r in Hrows.
Qed.

(** X23.  Registration does not log the user in.  After a successful
    registration, a login that passes validation for the registered email
    resolves to the new row, which is active and unverified, so the login
    answers 400 EMAIL_NOT_VERIFIED and hands a second verification mail
    for the same user to the mail service. *)
Theorem register_then_login_unverified r1 r2 w rd vd :
  RegisterSerializer_schema (data r1) = inr rd →
  email_unknown (users w) (Some (reg_email rd)) →
  LoginSerializer_validate (users (RegisterAPIView.create r1 w).2) (data r2)
    = inr vd →
  vd !! "email" = Some (reg_email rd) →
  ∃ w2,
    LoginAPIView.post r2 (RegisterAPIView.create r1 w).2
      = (Return (api_error_response EMAIL_NOT_VERIFIED), w2)
    ∧ outbox w2
      = VerificationMail (reg_email rd) (fresh_key (users w))
        :: VerificationMail (reg_email rd) (fresh_key (users w))
        :: outbox w
    ∧ users w2 = users (RegisterAPIView.create r1 w).2.
Proof.
  intros Hs Hun Hlogin Hemail.
  rewrite (register_create_run r1 w rd Hs Hun) in *. simpl in *.
  set (u := mkUser (fresh_key (users w)) (reg_email rd)
                   (make_password (reg_password rd)) true false None) in *.
  assert (Hres : email_resolves (<[pk u := u]> (users w)) (vd !! "email") u).
  { rewrite Hemail. apply email_resolves_fresh; [done| |done].
    apply fresh_key_fresh. }
  eexists. split.
  - by rewrite (login_post_resolved r2 _ vd u).
  - done.
Qed.

End MoreRegister.

Section MoreRegisterWitnesses.
Import Reference ReferenceVerification.

(** A second registration under alice's address. *)
Lemma register_duplicate_witness :
  ∃ errs,
    RegisterAPIView.as_view (C := collaborators)
        (post_request {[ "email" := "alice@example.org";
                         "password" := "longenough"; "name" := "Mallory" ]}
           anonymous) world0
      = (Return (mkResponse errs 400), world0).
Proof.
  destruct (register_invalid_creates_nothing (C := collaborators)
              (post_request {[ "email" := "alice@example.org";
                               "password" := "longenough"; "name" := "Mallory" ]}
                 anonymous) world0)
    as (errs & _ & Hview).
  - right.
    exists (mkRegisterData "alice@example.org" "longenough" "Mallory"), 1%Z, alice.
    split; [vm_compute; reflexivity|]. split; [vm_compute; reflexivity|].
    reflexivity.
  - exists errs. apply Hview; reflexivity.
Defined.

(** Dave registers and tries to log in at once. *)
Lemma register_then_login_witness :
  ∃ w2,
    LoginAPIView.post (C := collaborators)
        (login_request "dave@example.org" "longenough")
        (RegisterAPIView.create (C := collaborators) register_request world0).2
      = (Return (api_error_response (EMAIL_NOT_VERIFIED (C := collaborators))),
         w2)
    ∧ outbox w2 = [VerificationMail "dave@example.org" 4;
                   VerificationMail "dave@example.org" 4].
Proof.
  destruct (register_then_login_unverified (C := collaborators)
              register_request (login_request "dave@example.org" "longenough")
              world0
              (mkRegisterData "dave@example.org" "longenough" "Dave D.")
              {[ "email" := "dave@example.org" ]})
    as (w2 & Hpost & Hout & _).
  - vm_compute. reflexivity.
  - apply (bool_decide_unpack _). vm_compute. exact I.
  - vm_compute. reflexivity.
  - vm_compute. reflexivity.
  - exists w2. split; [exact Hpost|]. rewrite Hout. vm_compute. reflexivity.
Defined.

End MoreRegisterWitnesses.

(** ** Decimal keys: printing and reading back *)

Section Decimal.

Lemma string_app_assoc (a b c : string) : (a +:+ b) +:+ c = a +:+ (b +:+ c).
Proof.
  induction a as [|x a IH]; [done|].
  change (String x ((a +:+ b) +:+ c) = String x (a +:+ (b +:+ c))).
  by rewrite IH.
Qed.

Lemma int_digits_app (a b : string) (acc : Z) :
  int_digits (a +:+ b) acc
  = match int_digits a acc with
    | Some v => int_digits b v
    | None => None
    end.
Proof.
  revert acc. induction a as [|x a IH]; intros acc.
  - change ("" +:+ b) with b. done.
  - change (String x a +:+ b) with (String x (a +:+ b)). simpl.
    destruct (digit_of x); [apply IH|done].
Qed.

Lemma digit_of_pretty_N_char (d : N) :
  (d < 10)%N → digit_of (pretty_N_char d) = Some (Z.of_N d).
Proof.
  intros Hd.
  assert (d = 0 ∨ d = 1 ∨ d = 2 ∨ d = 3 ∨ d = 4 ∨ d = 5 ∨ d = 6 ∨ d = 7
          ∨ d = 8 ∨ d = 9)%N as Hcases by lia.
  repeat destruct Hcases as [->|Hcases]; try done. by subst.
Qed.

Lemma pretty_N_go_app (x : N) (s : string) :
  pretty_N_go x s = pretty_N_go x "" +:+ s.
Proof.
  revert s. induction (N.lt_wf_0 x) as [x _ IH]; intros s.
  destruct (decide (x = 0)%N) as [->|Hx]; [done|].
  assert (Hlt : (x `div` 10 < x)%N) by (apply N.div_lt; lia).
  rewrite !(pretty_N_go_step x) by lia.
  rewrite (IH _ Hlt (String (pretty_N_char (x `mod` 10)) s)).
  rewrite (IH _ Hlt (String (pretty_N_char (x `mod` 10)) "")).
  by rewrite string_app_assoc.
Qed.

Lemma int_digits_pretty_N_go (x : N) :
  int_digits (pretty_N_go x "") 0 = Some (Z.of_N x).
Proof.
  induction (N.lt_wf_0 x) as [x _ IH].
  destruct (decide (x = 0)%N) as [->|Hx]; [done|].
  rewrite pretty_N_go_step by lia. rewrite pretty_N_go_app, int_digits_app.
  rewrite IH by (apply N.div_lt; lia). simpl.
  rewrite digit_of_pretty_N_char by (apply N.mod_lt; lia).
  f_equal. rewrite (N.div_mod x 10) at 3 by lia. lia.
Qed.

Lemma python_int_pretty_N (x : N) : python_int (pretty x) = Some (Z.of_N x).
Proof.
  unfold pretty, pretty_N. destruct (decide (x = 0)%N) as [->|Hx]; [done|].
  pose proof (int_digits_pretty_N_go x) as Hd.
  unfold python_int. destruct (pretty_N_go x "") eqn:Hs; [|done].
  simpl in Hd. injection Hd as Hd. lia.
Qed.

Lemma python_int_pretty_Z (k : Z) :
  (0 ≤ k)%Z → python_int (pretty k) = Some k.
Proof.
  intros Hk. destruct k as [|p|p]; [done| |lia].
  change (pretty (Zpos p)) with (pretty (Npos p)).
  by rewrite python_int_pretty_N.
Qed.

(** X14.  The decimal text that the reset mail carries for a user's key
    ([force_bytes(user.pk)]) reads back, through [int], as the same key,
    for every key from zero upwards. *)
Theorem force_bytes_reads_back (k : Z) :
  (0 ≤ k)%Z → python_int (ForgetPasswordView.force_bytes k) = Some k.
Proof. apply python_int_pretty_Z. Qed.

Lemma force_bytes_reads_back_witness :
  python_int (ForgetPasswordView.force_bytes 2026) = Some 2026%Z.
Proof. apply (force_bytes_reads_back 2026). lia. Defined.

End Decimal.

Section MoreForget.
Context `{C : Collaborators}.

(** X12.  A forget-password request without an [email] key is treated
    like an unknown address: the lookup for [None] finds nobody, the
    exception is caught, and the handler returns the generic 200 message
    with no mail sent and nothing written. *)
Theorem forget_missing_email r w :
  data r !! "email" = None →
  ForgetPasswordView.post r w = (Return generic_forget_response, w).
Proof.
  intros He. apply forget_post_unknown. rewrite He. by intros k u _.
Qed.

(** X13.  Whatever the request, the forget-password handler writes no
    user or profile row and leaves the clock alone.  The outbox either
    stays as it is or grows by exactly one reset mail, and that mail goes
    to the stored address of the one user the requested email resolves
    to, carrying that user's encoded key and a token signed for that
    user's current state. *)
Theorem forget_world_effects r w :
  users (ForgetPasswordView.post r w).2 = users w
  ∧ profiles (ForgetPasswordView.post r w).2 = profiles w
  ∧ clock (ForgetPasswordView.post r w).2 = clock w
  ∧ (outbox (ForgetPasswordView.post r w).2 = outbox w
     ∨ ∃ u p, email_resolves (users w) (data r !! "email") u
              ∧ p ∈ profiles_of_user (pk u) (profiles w)
              ∧ outbox (ForgetPasswordView.post r w).2
                = reset_mail u (get_fullname p) (clock w) :: outbox w).
Proof.
  unfold ForgetPasswordView.post, User_objects_get, make_token, User_profile,
    email_service_send_html, mk_Response, email_resolves.
  unfold_monad.
  destruct (users_with_email _ _) as [|u [|u2 l]]; simpl; [by auto| |by auto].
  destruct (profiles_of_user _ _) as [|p ps] eqn:Hp; simpl; [by auto|].
  repeat split. right. exists u, p. split; [done|]. split; [|done].
  rewrite Hp. by left.
Qed.

(** X15.  The link that forget-password mails is the one validate-token
    accepts.  For a user stored under its own non-negative key, with a
    base64 codec that decodes what it encodes, a generator whose tokens
    carry their time of issue, and a non-negative time bound: the mail
    holds a [uidb64] and a [token] with which a validate-token request,
    run in the world the forget request leaves, answers "Token is valid"
    and changes nothing. *)
Theorem forget_link_validates r w u r2 :
  email_resolves (users w) (data r !! "email") u →
  has_profile (profiles w) u →
  users w !! pk u = Some u →
  (0 ≤ pk u)%Z →
  (∀ s, urlsafe_base64_decode (urlsafe_base64_encode s) = Some s) →
  (∀ si, token_timestamp (sign si) = Some (si_timestamp si)) →
  (0 ≤ PASSWORD_RESET_TIMEOUT)%Z →
  data r2 !! "uidb64"
    = Some (urlsafe_base64_encode (ForgetPasswordView.force_bytes (pk u))) →
  data r2 !! "token" = Some (sign (signing_input u (clock w))) →
  (∃ fullname,
     outbox (ForgetPasswordView.post r w).2
     = reset_mail u fullname (clock w) :: outbox w)
  ∧ ValidateResetPasswordTokenView.post r2 (ForgetPasswordView.post r w).2
    = (Return token_valid_response, (ForgetPasswordView.post r w).2).
Proof.
  intros Hres Hp Hk Hpk Hcodec Hts Hto Huid Htok.
  apply profiles_of_user_nonempty in Hp as (p & l & Hp).
  assert (Hrun : ForgetPasswordView.post r w
                 = (Return generic_forget_response,
                    push_mail (reset_mail u (get_fullname p) (clock w)) w)).
  { unfold ForgetPasswordView.post, User_objects_get, make_token, User_profile,
      email_service_send_html, mk_Response.
    unfold email_resolves in Hres. unfold_monad. rewrite Hres. simpl.
    by rewrite Hp. }
  rewrite Hrun. simpl. split; [by eauto|].
  unfold ValidateResetPasswordTokenView.post,
    ResetPasswordTokenValidateSerializer_is_valid, user_of_uidb64, mk_Response.
  rewrite Huid, Htok. unfold_monad. simpl.
  rewrite Hcodec. simpl.
  unfold ForgetPasswordView.force_bytes. rewrite python_int_pretty_Z by done.
  simpl. rewrite Hk.
  unfold check_token. rewrite Hts. simpl.
  case_bool_decide as Hsig; [|done].
  case_bool_decide as Hage; [done|lia].
Qed.

End MoreForget.

Section MoreForgetWitnesses.
Import Reference ReferenceVerification.

Lemma of_text_to_text `{Countable A} (a : A) : of_text (to_text a) = Some a.
Proof.
  unfold of_text, to_text.
  change (pretty (encode a)) with (pretty (Npos (encode a))).
  rewrite python_int_pretty_N. simpl. apply decode_encode.
Qed.

(** A forget-password request with an empty body. *)
Lemma forget_missing_email_witness :
  ForgetPasswordView.post (C := collaborators)
      (post_request ∅ (authenticated bob)) world0
    = (Return generic_forget_response, world0).
Proof.
  apply (forget_missing_email (C := collaborators)
           (post_request ∅ (authenticated bob)) world0).
  reflexivity.
Defined.

(** Alice asks for a reset link and validates it. *)
Lemma forget_link_validates_witness :
  ValidateResetPasswordTokenView.post (C := collaborators)
      (post_request {[ "uidb64" := "1";
                       "token" := to_text (signing_input alice 5000) ]}
         (authenticated alice))
      (ForgetPasswordView.post (C := collaborators)
         (forget_request "alice@example.org" (authenticated alice)) world0).2
  = (Return token_valid_response,
     (ForgetPasswordView.post (C := collaborators)
        (forget_request "alice@example.org" (authenticated alice)) world0).2).
Proof.
  destruct (forget_link_validates (C := collaborators)
              (forget_request "alice@example.org" (authenticated alice)) world0
              alice
              (post_request {[ "uidb64" := "1";
                               "token" := to_text (signing_input alice 5000) ]}
                 (authenticated alice)))
    as (_ & Hvalid).
  - vm_compute. reflexivity.
  - exists 10%Z, (mkProfile 10 1 "Alice A."). split; vm_compute; reflexivity.
  - vm_compute. reflexivity.
  - simpl. lia.
  - reflexivity.
  - intros si. simpl. by rewrite of_text_to_text.
  - simpl. lia.
  - vm_compute. reflexivity.
  - vm_compute. reflexivity.
  - exact Hvalid.
Defined.

End MoreForgetWitnesses.

Section MoreProfile.
Context `{C : Collaborators}.

Lemma filter_rows_replace {A} (f : A → bool) (m : gmap Z A) k a a' :
  List.filter f (map_to_list m).*2 = [a] →
  m !! k = Some a →
  f a' = true →
  List.filter f (map_to_list (<[k:=a']> m)).*2 = [a'].
Proof.
  intros Hf Hk Ha'.
  assert (Ha : f a = true).
  { assert (Hin : In a (List.filter f (map_to_list m).*2))
      by (rewrite Hf; by left).
    by apply filter_In in Hin as [_ Hin]. }
  destruct (rows_replace m k a a' Hk) as [Hold Hnew].
  apply (filter_Permutation_list f) in Hold, Hnew.
  rewrite Hf in Hold. simpl in Hold, Hnew. rewrite Ha in Hold.
  rewrite Ha' in Hnew.
  apply Permutation_cons_inv, Permutation_nil_l in Hold.
  rewrite <- Hold in Hnew. by apply Permutation_singleton_r in Hnew.
Qed.

Lemma profile_get_run r w u :
  req_user r = Some u →
  method r = GET →
  ProfileAPIView.as_view r w =
    match profiles_of_user (pk u) (profiles w) with
    | [] => (Return not_found_response, w)
    | [p] => (Return (mkResponse (ProfileSerializer_data p) 200), w)
    | _ => (Raise MultipleObjectsReturned, w)
    end.
Proof.
  intros Hu Hm. rewrite (profile_view_method r w u Hu), Hm.
  unfold ProfileAPIView.retrieve, ProfileAPIView.get_object,
    get_object_or_404_Profile, mk_Response.
  rewrite Hu. unfold_monad.
  by destruct (profiles_of_user _ _) as [|p [|p2 l]].
Qed.

Lemma profile_patch_run r w u :
  req_user r = Some u →
  method r = PATCH →
  ProfileAPIView.as_view r w =
    match profiles_of_user (pk u) (profiles w) with
    | [] => (Return not_found_response, w)
    | [p] =>
        match ProfileSerializer_validate true (data r) with
        | inl errs => (Return (mkResponse errs 400), w)
        | inr vd =>
            (Return (mkResponse
                       (ProfileSerializer_data (ProfileSerializer_update p vd))
                       200),
             set_profiles
               (<[profile_id p := ProfileSerializer_update p vd]> (profiles w))
               w)
        end
    | _ => (Raise MultipleObjectsReturned, w)
    end.
Proof.
  intros Hu Hm. rewrite (profile_view_method r w u Hu), Hm.
  unfold ProfileAPIView.update, ProfileAPIView.get_object,
    get_object_or_404_Profile, Profile_save, mk_Response.
  rewrite Hu. unfold_monad.
  destruct (profiles_of_user _ _) as [|p [|p2 l]]; try done.
  unfold_monad. by destruct (ProfileSerializer_validate _ _).
Qed.

(** X16.  An authenticated caller that has no profile row gets 404 from
    the profile view, for GET and for PATCH alike; a PATCH is refused
    before its body is even validated, and nothing is written. *)
Theorem profile_missing_is_404 r w u :
  req_user r = Some u →
  profiles_of_user (pk u) (profiles w) = [] →
  method r = GET ∨ method r = PATCH →
  ProfileAPIView.as_view r w = (Return not_found_response, w)
  ∧ status_code not_found_response = 404%Z.
Proof.
  intros Hu Hp [Hm|Hm]; (split; [|done]).
  - by rewrite (profile_get_run r w u Hu Hm), Hp.
  - by rewrite (profile_patch_run r w u Hu Hm), Hp.
Qed.

(** X17.  A PATCH whose body the profile serializer rejects answers 400
    with the field errors and leaves the caller's profile, and the whole
    world, as it was. *)
Theorem profile_patch_invalid_body r w u p errs :
  req_user r = Some u →
  method r = PATCH →
  profiles_of_user (pk u) (profiles w) = [p] →
  ProfileSerializer_validate true (data r) = inl errs →
  ProfileAPIView.as_view r w = (Return (mkResponse errs 400), w).
Proof.
  intros Hu Hm Hp Hv. by rewrite (profile_patch_run r w u Hu Hm), Hp, Hv.
Qed.

(** X18.  A PATCH is what a later GET reads.  For a caller whose single
    profile is stored under its own id, after a PATCH with a valid body a
    GET by the same caller returns the patched profile, and sending the
    same PATCH again changes nothing further. *)
Theorem profile_patch_then_get r r' w u p vd :
  req_user r = Some u →
  method r = PATCH →
  profiles_of_user (pk u) (profiles w) = [p] →
  profiles w !! profile_id p = Some p →
  ProfileSerializer_validate true (data r) = inr vd →
  req_user r' = Some u →
  method r' = GET →
  ProfileAPIView.as_view r' (ProfileAPIView.as_view r w).2
    = (Return (mkResponse
                 (ProfileSerializer_data (ProfileSerializer_update p vd)) 200),
       (ProfileAPIView.as_view r w).2)
  ∧ (ProfileAPIView.as_view r (ProfileAPIView.as_view r w).2).2
    = (ProfileAPIView.as_view r w).2.
Proof.
  intros Hu Hm Hp Hk Hv Hu' Hm'.
  rewrite (profile_patch_run r w u Hu Hm), Hp, Hv. simpl.
  assert (Hp' : profiles_of_user (pk u)
                  (<[profile_id p := ProfileSerializer_update p vd]> (profiles w))
                = [ProfileSerializer_update p vd]).
  { apply (filter_rows_replace _ _ _ p); [done|done|].
    apply bool_decide_eq_true. simpl. by apply profiles_of_user_owner in Hp. }
  split.
  - rewrite (profile_get_run r' _ u Hu' Hm'). simpl. by rewrite Hp'.
  - rewrite (profile_patch_run r _ u Hu Hm). simpl. rewrite Hp', Hv. simpl.
    unfold set_profiles. simpl. f_equal.
    rewrite insert_insert_eq. f_equal.
    unfold ProfileSerializer_update. simpl. f_equal.
    by destruct (vd !! "name").
Qed.

End MoreProfile.

Section MoreProfileWitnesses.
Import Reference ReferenceVerification.

(** Dave, authenticated but without a profile row. *)
Lemma profile_missing_witness :
  ProfileAPIView.as_view (C := collaborators)
      (mkRequest GET ∅
         (authenticated (mkUser 4 "dave@example.org" "x" true true None)) None)
      world0
    = (Return not_found_response, world0).
Proof.
  destruct (profile_missing_is_404 (C := collaborators)
              (mkRequest GET ∅
                 (authenticated (mkUser 4 "dave@example.org" "x" true true None))
                 None)
              world0 (mkUser 4 "dave@example.org" "x" true true None))
    as (Hview & _).
  - reflexivity.
  - vm_compute. reflexivity.
  - left. reflexivity.
  - exact Hview.
Defined.

(** Alice patches her name to the empty string. *)
Lemma profile_patch_invalid_witness :
  ProfileAPIView.as_view (C := strict_profile)
      (profile_request PATCH {[ "name" := "" ]}) world0
    = (Return (mkResponse
                 (JObj [("name", JStr "This field may not be blank.")]) 400),
       world0).
Proof.
  apply (profile_patch_invalid_body (C := strict_profile)
           (profile_request PATCH {[ "name" := "" ]}) world0 alice
           (mkProfile 10 1 "Alice A.")).
  - reflexivity.
  - reflexivity.
  - vm_compute. reflexivity.
  - vm_compute. reflexivity.
Defined.

(** Alice patches her name and reads it back. *)
Lemma profile_patch_then_get_witness :
  (ProfileAPIView.as_view (C := collaborators) (profile_request GET ∅)
     (ProfileAPIView.as_view (C := collaborators)
        (profile_request PATCH {[ "name" := "Al" ]}) world0).2).1
  = Return (mkResponse (profile_payload (mkProfile 10 1 "Al")) 200).
Proof.
  destruct (profile_patch_then_get (C := collaborators)
              (profile_request PATCH {[ "name" := "Al" ]})
              (profile_request GET ∅) world0 alice
              (mkProfile 10 1 "Alice A.") {[ "name" := "Al" ]})
    as (Hget & _).
  - reflexivity.
  - reflexivity.
  - vm_compute. reflexivity.
  - vm_compute. reflexivity.
  - vm_compute. reflexivity.
  - reflexivity.
  - reflexivity.
  - rewrite Hget. vm_compute. reflexivity.
Defined.

End MoreProfileWitnesses.

Section MoreDispatch.
Context `{C : Collaborators} `{V : VerificationSerializers}.

(** X19.  The login, registration, email-validation, token, and
    password-reset views define a handler for POST only.  A GET, PUT,
    PATCH or DELETE request that passes authentication and the permission
    of the view is answered 405 and no handler runs: the world is
    unchanged. *)
Theorem post_only_views_reject_other_methods r w :
  method r ∈ [GET; PUT; PATCH; DELETE] →
  credentials_rejected r = false →
  LoginAPIView.as_view r w = (Return method_not_allowed_response, w)
  ∧ RegisterAPIView.as_view r w = (Return method_not_allowed_response, w)
  ∧ ValidateEmailVerificationTokenView.as_view r w
    = (Return method_not_allowed_response, w)
  ∧ (is_Some (req_user r) →
     TokenVerifyAPIView.as_view r w = (Return method_not_allowed_response, w)
     ∧ TokenRefreshAPIView.as_view r w
       = (Return method_not_allowed_response, w)
     ∧ ForgetPasswordView.as_view r w
       = (Return method_not_allowed_response, w)
     ∧ ValidateResetPasswordTokenView.as_view r w
       = (Return method_not_allowed_response, w)
     ∧ ForgetResetPasswordView.as_view r w
       = (Return method_not_allowed_response, w)).
Proof.
  intros Hin Hc.
  assert (Hm : method r ≠ POST).
  { intros Heq. rewrite Heq in Hin.
    repeat (apply elem_of_cons in Hin as [Hin|Hin]; [discriminate Hin|]).
    by apply elem_of_nil in Hin. }
  split; [by apply dispatch_not_post|].
  split; [by apply dispatch_not_post|].
  split; [by apply dispatch_not_post|].
  intros [_ Hp]%principal_accepted.
  repeat split; by apply dispatch_not_post.
Qed.

End MoreDispatch.

Section MoreDispatchWitnesses.
Import Reference ReferenceVerification.

(** A GET on the login view. *)
Lemma post_only_witness :
  LoginAPIView.as_view (C := collaborators)
      (mkRequest GET ∅ anonymous None) world0
    = (Return method_not_allowed_response, world0).
Proof.
  destruct (post_only_views_reject_other_methods
              (C := collaborators) (V := serializers)
              (mkRequest GET ∅ anonymous None) world0)
    as (Hlogin & _).
  - apply elem_of_cons. by left.
  - reflexivity.
  - exact Hlogin.
Defined.

End MoreDispatchWitnesses.

Section MoreList.

Lemma string_compare_trans_le (s1 s2 s3 : string) :
  String.compare s1 s2 ≠ Gt →
  String.compare s2 s3 ≠ Gt →
  String.compare s1 s3 ≠ Gt.
Proof.
  revert s2 s3. induction s1 as [|a s1 IH]; intros [|b s2] [|c s3];
    simpl; try done.
  unfold Ascii.compare.
  destruct (N.compare_spec (Ascii.N_of_ascii a) (Ascii.N_of_ascii b)) as [Hab|Hab|Hab],
    (N.compare_spec (Ascii.N_of_ascii b) (Ascii.N_of_ascii c)) as [Hbc|Hbc|Hbc],
    (N.compare_spec (Ascii.N_of_ascii a) (Ascii.N_of_ascii c)) as [Hac|Hac|Hac];
    try done; try lia.
  apply IH.
Qed.

#[local] Instance email_le_total : Total UserListView.email_le.
Proof. intros u v. apply String.leb_total. Qed.

#[local] Instance email_le_trans : Transitive UserListView.email_le.
Proof.
  intros u v x. unfold UserListView.email_le, String.leb.
  pose proof (string_compare_trans_le (email u) (email v) (email x)) as Ht.
  destruct (String.compare (email u) (email v)),
    (String.compare (email v) (email x)),
    (String.compare (email u) (email x)); try done;
    intros _ _; exfalso; by apply Ht.
Qed.

(** X21.  The queryset of the user listing holds every stored user row
    exactly as often as the table does, nothing else, and is in
    non-decreasing order of email: each entry's email is at most that of
    every later entry. *)
Theorem user_list_complete_and_sorted w :
  UserListView.get_queryset w ≡ₚ (map_to_list (users w)).*2
  ∧ StronglySorted UserListView.email_le (UserListView.get_queryset w)
  ∧ length (UserListView.get_queryset w) = size (users w)
  ∧ (∀ u, u ∈ UserListView.get_queryset w ↔ ∃ k, users w !! k = Some u).
Proof.
  unfold UserListView.get_queryset.
  pose proof (merge_sort_Permutation UserListView.email_le
                (map_to_list (users w)).*2) as Hperm.
  split; [done|]. split; [apply StronglySorted_merge_sort; apply _|].
  split.
  - rewrite Hperm, length_fmap. by rewrite length_map_to_list.
  - intros u. rewrite Hperm, list_elem_of_fmap. split.
    + intros [[k u'] [-> Hel]]. exists k. by apply elem_of_map_to_list.
    + intros [k Hk]. exists (k, u). split; [done|].
      by apply elem_of_map_to_list.
Qed.

(** The three sample users, listed. *)
Example user_list_sample :
  UserListView.get_queryset Reference.world0
  = [Reference.alice; Reference.bob; Reference.carol].
Proof. vm_compute. reflexivity. Qed.

End MoreList.

Section MoreFailures.
Context `{C : Collaborators} `{V : VerificationSerializers}.

Ltac settle_failure :=
  intros r w e w'; unfold_monad;
  repeat (first [ case_match | case_bool_decide ]; unfold_monad; try done);
  try (intros [= <- <-]; reflexivity); try congruence.

Lemma login_fails_clean : fails_clean LoginAPIView.post.
Proof.
  unfold fails_clean, LoginAPIView.post, User_objects_get, User_save,
    send_verification_email, mk_Response.
  settle_failure.
Qed.

Lemma refresh_fails_clean : fails_clean TokenRefreshAPIView.post.
Proof.
  unfold fails_clean, TokenRefreshAPIView.post, TokenRefreshSerializer_is_valid,
    get_validated_token, Token_init, get_user, User_save, mk_Response.
  intros r w e w'. destruct (data r !! "refresh") as [raw|]; unfold_monad;
    [|by intros [= <- <-]].
  destruct (jwt_decode raw) as [c|]; [|by intros [= <- <-]].
  repeat (case_bool_decide; try by intros [= <- <-]).
  rewrite lookup_singleton_eq.
  destruct (jwt_decode (jwt_encode _)) as [c'|]; [|by intros [= <- <-]].
  repeat (case_bool_decide; try by intros [= <- <-]).
  destruct (users w !! user_id c') as [u|]; [|by intros [= <- <-]].
  destruct (is_active u); [|by intros [= <- <-]]. simpl. done.
Qed.

Lemma token_verify_fails_clean : fails_clean TokenVerifyAPIView.post.
Proof.
  unfold fails_clean, TokenVerifyAPIView.post, get_validated_token,
    Token_init, get_user, mk_Response.
  intros r w e w'. destruct (data r !! "token") as [raw|]; unfold_monad;
    [|by intros [= <- <-]].
  destruct (jwt_decode raw) as [c|]; [|by intros [= <- <-]].
  repeat (case_bool_decide; try by intros [= <- <-]).
  destruct (users w !! user_id c) as [u|]; [|by intros [= <- <-]].
  destruct (is_active u); [done|by intros [= <- <-]].
Qed.

Lemma forget_fails_clean : fails_clean ForgetPasswordView.post.
Proof.
  unfold fails_clean, ForgetPasswordView.post, User_objects_get, make_token,
    User_profile, email_service_send_html, mk_Response.
  intros r w e w'. unfold_monad.
  destruct (users_with_email _ _) as [|u [|u2 l]]; simpl; try done;
    try by intros [= <- <-].
  destruct (profiles_of_user _ _) as [|p ps]; simpl; [by intros [= <- <-]|done].
Qed.

Lemma reset_validate_fails_clean :
  fails_clean ValidateResetPasswordTokenView.post.
Proof.
  unfold fails_clean, ValidateResetPasswordTokenView.post,
    ResetPasswordTokenValidateSerializer_is_valid, mk_Response.
  intros r w e w'.
  destruct (data r !! "uidb64") as [uid|], (data r !! "token") as [tok|];
    unfold_monad; try by intros [= <- <-].
  destruct (user_of_uidb64 _ _) as [u|]; [|by intros [= <- <-]].
  destruct (check_token _ _ _); [done|by intros [= <- <-]].
Qed.

Lemma profile_retrieve_fails_clean : fails_clean ProfileAPIView.retrieve.
Proof.
  unfold fails_clean, ProfileAPIView.retrieve, ProfileAPIView.get_object,
    get_object_or_404_Profile, mk_Response.
  intros r w e w'.
  destruct (req_user r) as [u|]; unfold_monad; [|by intros [= <- <-]].
  destruct (profiles_of_user _ _) as [|p [|p2 l]]; try done;
    by intros [= <- <-].
Qed.

Lemma resend_fails_clean : fails_clean ResendEmailVerificationView.post.
Proof.
  unfold fails_clean, ResendEmailVerificationView.post,
    send_verification_email, mk_Response.
  intros r w e w'. unfold_monad.
  destruct (ResendEmailSerializer_validate _ _); [by intros [= <- <-]|done].
Qed.

(** X24.  The handlers in which every validation and lookup comes before
    the first write or mail, and only the construction of the response
    follows it, leave no half-done request behind: whenever login, token
    refresh, token verification, forget-password, reset-token validation,
    profile retrieval or resend raises (a validation error, a failed
    lookup, a rejected token, a missing profile), the world is exactly as
    it was before the request. *)
Theorem handlers_fail_without_writes :
  fails_clean LoginAPIView.post
  ∧ fails_clean TokenRefreshAPIView.post
  ∧ fails_clean TokenVerifyAPIView.post
  ∧ fails_clean ForgetPasswordView.post
  ∧ fails_clean ValidateResetPasswordTokenView.post
  ∧ fails_clean ProfileAPIView.retrieve
  ∧ fails_clean ResendEmailVerificationView.post.
Proof.
  split; [apply login_fails_clean|].
  split; [apply refresh_fails_clean|].
  split; [apply token_verify_fails_clean|].
  split; [apply forget_fails_clean|].
  split; [apply reset_validate_fails_clean|].
  split; [apply profile_retrieve_fails_clean|].
  apply resend_fails_clean.
Qed.

End MoreFailures.
